(** * Allocator: the Facility model of [models.py]

    A shallow embedding of [models.py]: the SQLite store behind
    [Facility.db] is a record of three tables, every method is a
    computation over that store which either returns or raises, and the
    Python string and list primitives the methods use are written out.

    A string is a sequence of characters of code point 0 to 255: the
    eight-bit [ascii] of a [string] stands for the code point of a
    character of a Python [str]. *)

From Stdlib Require Import String Ascii List ZArith Bool Arith Lia.
From Equations Require Import Equations.
Import ListNotations.

Local Open Scope string_scope.
Local Open Scope Z_scope.

(** ** Python string primitives *)

Module PyStr.

(** [sub in s] for two strings. *)
Fixpoint contains (sub s : string) : bool :=
  prefix sub s ||
  match s with
  | EmptyString => false
  | String _ s' => contains sub s'
  end.

(** [s.split(sep)] for a non-empty [sep]: scanned from the left, every
    occurrence of [sep] closes the current chunk and is jumped over.
    [skip] counts the characters of a matched separator still to be
    jumped over, [cur] holds the current chunk, last character first. *)
Fixpoint split_from (sep : string) (skip : nat) (cur : list ascii) (s : string)
  : list string :=
  match s with
  | EmptyString => [string_of_list_ascii (rev cur)]
  | String c s' =>
      match skip with
      | S k => split_from sep k cur s'
      | O =>
          if prefix sep s
          then string_of_list_ascii (rev cur)
                 :: split_from sep (String.length sep - 1) [] s'
          else split_from sep 0 (c :: cur) s'
      end
  end.

Definition split (s sep : string) : list string := split_from sep 0 [] s.

(** [c.isspace()] for a character of a [str], on the code points 0 to
    255: tab, line feed, vertical tab, form feed and carriage return (9 to
    13), the four separators 28 to 31, space (32), next line (133) and
    no-break space (160). *)
Definition isspace (c : ascii) : bool :=
  let n := nat_of_ascii c in
  ((9 <=? n) && (n <=? 13) || (28 <=? n) && (n <=? 32)
   || (n =? 133) || (n =? 160))%nat.

Fixpoint lstrip_chars (l : list ascii) : list ascii :=
  match l with
  | [] => []
  | c :: l' => if isspace c then lstrip_chars l' else l
  end.

(** [s.strip()] *)
Definition strip (s : string) : string :=
  string_of_list_ascii
    (rev (lstrip_chars (rev (lstrip_chars (list_ascii_of_string s))))).

(** The lower case of a character, on the code points 0 to 255: the
    letters [A] to [Z] (65 to 90) and the capital letters 192 to 222 of
    Latin-1, the multiplication sign 215 apart, move up by 32. *)
Definition lower_char (c : ascii) : ascii :=
  let n := nat_of_ascii c in
  if ((65 <=? n) && (n <=? 90)
      || (192 <=? n) && (n <=? 222) && negb (n =? 215))%nat
  then ascii_of_nat (n + 32) else c.

(** [s.lower()] *)
Fixpoint lower (s : string) : string :=
  match s with
  | EmptyString => EmptyString
  | String c s' => String (lower_char c) (lower s')
  end.

End PyStr.

(** ** The store: the three tables that [Facility.intialize_db] creates *)

Record room_row := mk_room_row {
  room_id : Z;
  room_name : string;
  room_type : string;
  room_capacity : Z
}.

Record person_row := mk_person_row {
  person_id : Z;
  person_name : string;
  person_type : string;
  person_accomodation : string
}.

Record people_rooms_row := mk_people_rooms_row {
  pr_id : Z;
  pr_person_id : Z;
  pr_room_id : Z
}.

Record Database := mk_Database {
  rooms_table : list room_row;
  people_table : list person_row;
  people_rooms_table : list people_rooms_row
}.

(** The state of a new database file after [intialize_db]: three empty
    tables.  On a file that already holds the tables, the
    [CREATE TABLE IF NOT EXISTS] statements change nothing. *)
Definition intialize_db : Database :=
  {| rooms_table := []; people_table := []; people_rooms_table := [] |}.

(** ** Exceptions and computations over the store *)

Inductive exn :=
| ValueError (msg : string)
| IntegrityError
| IndexError
| UnboundLocalError.

Inductive outcome (A : Type) :=
| Returned (a : A)
| Raised (e : exn).
Arguments Returned {A} a.
Arguments Raised {A} e.

(** A method run against the store: the store it leaves behind (every
    statement is committed as it is executed) and what the caller sees. *)
Definition Py (A : Type) : Type := Database -> Database * outcome A.

Definition ret {A} (a : A) : Py A := fun db => (db, Returned a).

Definition raise {A} (e : exn) : Py A := fun db => (db, Raised e).

Definition bind {A B} (m : Py A) (k : A -> Py B) : Py B :=
  fun db =>
    match m db with
    | (db', Returned a) => k a db'
    | (db', Raised e) => (db', Raised e)
    end.

Notation "x <- m ;; k" := (bind m (fun x => k))
  (at level 61, m at next level, right associativity).
Notation "m ;; k" := (bind m (fun _ => k))
  (at level 61, right associativity).

(** [for x in xs: body(x)] over a list that the body does not change. *)
Fixpoint for_in {A} (xs : list A) (body : A -> Py unit) : Py unit :=
  match xs with
  | [] => ret tt
  | x :: xs' => body x ;; for_in xs' body
  end.

(** ** The storage layer: the SQL statements the methods issue *)

(** The key of [integer PRIMARY KEY AUTOINCREMENT]: one more than the
    largest key used so far.  No statement of the program deletes a row,
    so that is the largest key in the table. *)
Definition next_id (ids : list Z) : Z := 1 + fold_right Z.max 0 ids.

Lemma next_id_above ids x : In x ids -> x < next_id ids.
Proof.
  unfold next_id. induction ids as [|y ids IH]; cbn [fold_right In]; intros H.
  - destruct H.
  - destruct H as [->|H]; [|specialize (IH H)]; lia.
Qed.

(** Whether a row of the table holds [name] in its [UNIQUE] column. *)
Definition has_room (name : string) (db : Database) : bool :=
  existsb (fun r => String.eqb (room_name r) name) (rooms_table db).

Definition has_person (name : string) (db : Database) : bool :=
  existsb (fun p => String.eqb (person_name p) name) (people_table db).

(** [INSERT INTO rooms (name, type, capacity) VALUES (...)]: the [UNIQUE]
    column [name] makes the statement fail with [IntegrityError] when a
    room of that name is there, leaving the table as it was. *)
Definition insert_room (name type : string) (capacity : Z) : Py unit :=
  fun db =>
    if has_room name db
    then (db, Raised IntegrityError)
    else ({| rooms_table :=
               rooms_table db ++
               [mk_room_row (next_id (map room_id (rooms_table db)))
                            name type capacity];
             people_table := people_table db;
             people_rooms_table := people_rooms_table db |}, Returned tt).

(** [INSERT INTO people (name, type, accomodation) VALUES (...)] *)
Definition insert_person (name type accomodation : string) : Py unit :=
  fun db =>
    if has_person name db
    then (db, Raised IntegrityError)
    else ({| rooms_table := rooms_table db;
             people_table :=
               people_table db ++
               [mk_person_row (next_id (map person_id (people_table db)))
                              name type accomodation];
             people_rooms_table := people_rooms_table db |}, Returned tt).

(** [select count(id) as room_count from people_rooms where room_id=...] *)
Definition count_people_rooms (rid : Z) (db : Database) : Z :=
  Z.of_nat (length (filter (fun a => pr_room_id a =? rid) (people_rooms_table db))).

(** ** Rooms and people *)

Inductive Room :=
| LivingSpace (name : string)
| Office (name : string).

Definition Room_name (r : Room) : string :=
  match r with LivingSpace n | Office n => n end.

(** [self.capacity], set once by [__init__]. *)
Definition capacity (r : Room) : Z :=
  match r with
  | LivingSpace _ => 4
  | Office _ => 6
  end.

(** [has_vacancy] reads [self.occupants], an attribute that no class of
    the file sets, so the occupants are an argument here.  No method of
    [Facility] calls it. *)
Definition has_vacancy (occupants : list Z) (r : Room) : bool :=
  Z.of_nat (length occupants) <? capacity r.

Definition Room_save (r : Room) : Py unit :=
  match r with
  | LivingSpace n => insert_room n "L" (capacity r)
  | Office n => insert_room n "O" (capacity r)
  end.

Inductive Person :=
| Fellow (name wants_accomodation : string)
| Staff (name : string).

Definition get_role (p : Person) : string :=
  match p with
  | Fellow _ _ => "Fellow"
  | Staff _ => "Staff"
  end.

Definition Person_save (p : Person) : Py unit :=
  match p with
  | Fellow n wants_accomodation => insert_person n "F" wants_accomodation
  | Staff n => insert_person n "S" "N"
  end.

(** ** Python list primitives used by [load_people] *)

(** [lst.remove(x)]: drops the first item equal to [x]; [None] stands for
    the [ValueError] raised when no item is equal to [x]. *)
Fixpoint list_remove {A} (eqb : A -> A -> bool) (x : A) (lst : list A)
  : option (list A) :=
  match lst with
  | [] => None
  | y :: lst' =>
      if eqb y x then Some lst'
      else option_map (cons y) (list_remove eqb x lst')
  end.

Lemma list_remove_length {A} (eqb : A -> A -> bool) x lst lst' :
  list_remove eqb x lst = Some lst' -> S (length lst') = length lst.
Proof.
  revert lst'. induction lst as [|y l IH]; simpl; intros lst' H.
  - discriminate.
  - destruct (eqb y x).
    + now inversion H.
    + destruct (list_remove eqb x l) as [l'|]; simpl in H; [|discriminate].
      inversion H; subst. simpl. now rewrite (IH l' eq_refl).
Qed.

Definition inspect {A} (a : A) : {b : A | a = b} := exist _ a eq_refl.

(** The two persisting loops of [load_people]:

      for item in lst:
          try: save(item)
          except IntegrityError: lst.remove(item)

    The list iterator holds an index [i] into [lst], reads [lst[i]] as long
    as [i < len(lst)] and then moves on to [i + 1], while the handler
    shortens the very list that is being iterated. *)
Equations? save_or_remove {A} (eqb : A -> A -> bool) (save : A -> Py unit)
    (i : nat) (lst : list A) (db : Database)
  : Database * outcome (list A) by wf (length lst - i)%nat lt :=
  save_or_remove eqb save i lst db with inspect (nth_error lst i) := {
    | exist _ None _ => (db, Returned lst)
    | exist _ (Some item) Hi with save item db := {
        | (db', Returned _) => save_or_remove eqb save (S i) lst db'
        | (db', Raised IntegrityError)
            with inspect (list_remove eqb item lst) := {
            | exist _ (Some lst') Hr => save_or_remove eqb save (S i) lst' db'
            | exist _ None _ =>
                (db', Raised (ValueError "list.remove(x): x not in list")) }
        | (db', Raised e) => (db', Raised e) } }.
Proof.
  - assert (i < length lst)%nat by (apply nth_error_Some; congruence). lia.
  - assert (i < length lst)%nat by (apply nth_error_Some; congruence).
    apply list_remove_length in Hr. lia.
Qed.

(** ** The Facility *)

(** One entry of the list built by [available_rooms]. *)
Record room_info := mk_room_info {
  info_name : string;
  info_type : string;
  info_capacity : Z;
  info_available_space : Z
}.

(** [load_people] returns nothing; these are the three values it prints. *)
Record load_output := mk_load_output {
  printed_fellows : list (string * string);
  printed_staff : list string;
  printed_rooms : list room_info
}.

(** [==] on the [(name, accomodation)] tuples of [load_people]. *)
Definition tuple_eqb (a b : string * string) : bool :=
  String.eqb (fst a) (fst b) && String.eqb (snd a) (snd b).

Module Facility.

Definition create_rooms (room_type : string) (rooms : list string) : Py unit :=
  if negb (String.eqb room_type "living_space" || String.eqb room_type "office")
  then raise (ValueError "Invalid Room Type")
  else
    for_in rooms (fun room_name =>
      room_instance <-
        (if String.eqb room_type "living_space" then ret (LivingSpace room_name)
         else if String.eqb room_type "office" then ret (Office room_name)
         else raise UnboundLocalError) ;;
      Room_save room_instance).

Definition add_fellows (fellows : list string) (accomodation : string)
  : Py unit :=
  let wants_accomodation :=
    if String.eqb (PyStr.lower accomodation) "y" then "Y" else "N" in
  for_in fellows (fun name =>
    let fellow_instance := Fellow name wants_accomodation in
    Person_save fellow_instance).

Definition add_staff (staff : list string) : Py unit :=
  for_in staff (fun name =>
    let staff_instance := Staff name in
    Person_save staff_instance).

(** The body of the method is [pass]. *)
Definition reallocate_person (person new_room : string) : Py unit := ret tt.

(** The reading loop of [load_people] over the lines of the file, each
    with its line end; [fellows] and [staff] are the two lists it fills. *)
Fixpoint read_people (lines : list string)
    (fellows : list (string * string)) (staff : list string)
  : Py (list (string * string) * list string) :=
  match lines with
  | [] => ret (fellows, staff)
  | line :: lines' =>
      if PyStr.contains "FELLOW" line then
        let fellow_data := map PyStr.strip (PyStr.split line "FELLOW") in
        match fellow_data with
        | data0 :: data1 :: _ =>
            read_people lines' (fellows ++ [(data0, data1)]) staff
        | _ => raise IndexError
        end
      else if PyStr.contains "STAFF" line then
        let staff_data := map PyStr.strip (PyStr.split line "STAFF") in
        match staff_data with
        | data0 :: _ => read_people lines' fellows (staff ++ [data0])
        | [] => raise IndexError
        end
      else raise (ValueError "Invalid Input File!")
  end.

Definition available_rooms : Py (list room_info) :=
  fun db =>
    (db, Returned
           (map (fun room =>
                   let room_count := count_people_rooms (room_id room) db in
                   {| info_name := room_name room;
                      info_type := room_type room;
                      info_capacity := room_capacity room;
                      info_available_space := room_capacity room - room_count |})
                (rooms_table db))).

Definition load_people (lines : list string) : Py load_output :=
  read <- read_people lines [] [] ;;
  let '(fellows, staff) := read in
  fellows <- save_or_remove tuple_eqb
               (fun '(name, accomodation) =>
                  Person_save (Fellow name accomodation)) 0 fellows ;;
  staff <- save_or_remove String.eqb
             (fun member => Person_save (Staff member)) 0 staff ;;
  rooms <- available_rooms ;;
  ret {| printed_fellows := fellows;
         printed_staff := staff;
         printed_rooms := rooms |}.

(** The properties [rooms] and [people]: the number of rows. *)
Definition rooms : Py Z :=
  fun db => (db, Returned (Z.of_nat (length (rooms_table db)))).

Definition people : Py Z :=
  fun db => (db, Returned (Z.of_nat (length (people_table db)))).

End Facility.

(** ** Sequences of calls on a facility *)

Inductive call :=
| CreateRooms (room_type : string) (rooms : list string)
| AddFellows (fellows : list string) (accomodation : string)
| AddStaff (staff : list string)
| ReallocatePerson (person new_room : string)
| LoadPeople (lines : list string).

(** The store after a call, whether the call returned or raised. *)
Definition run (c : call) (db : Database) : Database :=
  match c with
  | CreateRooms room_type rooms => fst (Facility.create_rooms room_type rooms db)
  | AddFellows fellows accomodation =>
      fst (Facility.add_fellows fellows accomodation db)
  | AddStaff staff => fst (Facility.add_staff staff db)
  | ReallocatePerson person new_room =>
      fst (Facility.reallocate_person person new_room db)
  | LoadPeople lines => fst (Facility.load_people lines db)
  end.

(** The store after a sequence of calls, one after the other. *)
Definition run_all (calls : list call) (db : Database) : Database :=
  fold_left (fun d c => run c d) calls db.

(** The persons assigned to a room: the [person_id] of every
    [people_rooms] row of that room, in the order of the table. *)
Definition occupants_of (db : Database) (rid : Z) : list Z :=
  map pr_person_id
      (filter (fun a => pr_room_id a =? rid) (people_rooms_table db)).

(** The line end that closes a line read from the file. *)
Definition nl : string := String (ascii_of_nat 10) EmptyString.

(** ** How the store evolves: tables only grow *)

Section Growth.

Variable PR : room_row -> Prop.
Variable PP : person_row -> Prop.

(** A room row whose key is above every key of the rooms of [db]. *)
Definition fresh_room (db : Database) (r : room_row) : Prop :=
  Forall (fun r0 => room_id r0 < room_id r) (rooms_table db).

(** [db'] holds the rows of [db], unchanged and in place, followed by new
    rooms that satisfy [PR], under new keys, and new people that satisfy
    [PP]; the [people_rooms] table is the same. *)
Definition extends (db db' : Database) : Prop :=
  (exists added,
      rooms_table db' = (rooms_table db ++ added)%list /\
      Forall PR added /\ Forall (fresh_room db) added) /\
  (exists added,
      people_table db' = (people_table db ++ added)%list /\ Forall PP added) /\
  people_rooms_table db' = people_rooms_table db.

Definition grows {A} (m : Py A) : Prop :=
  forall db, extends db (fst (m db)).

Lemma extends_refl db : extends db db.
Proof.
  repeat split; try (exists []; rewrite app_nil_r; repeat split; auto).
Qed.

Lemma extends_trans db1 db2 db3 :
  extends db1 db2 -> extends db2 db3 -> extends db1 db3.
Proof.
  intros [[r1 (Hr1 & Fr1 & Gr1)] [[p1 [Hp1 Fp1]] Ha1]]
         [[r2 (Hr2 & Fr2 & Gr2)] [[p2 [Hp2 Fp2]] Ha2]].
  repeat split.
  - exists (r1 ++ r2)%list. rewrite Hr2, Hr1, app_assoc.
    split; [reflexivity|]. split; apply Forall_app; split; auto.
    eapply Forall_impl; [|exact Gr2]. unfold fresh_room.
    intros r Hr. rewrite Hr1 in Hr. now apply Forall_app in Hr.
  - exists (p1 ++ p2)%list. rewrite Hp2, Hp1, app_assoc.
    split; [reflexivity | now apply Forall_app].
  - congruence.
Qed.

Lemma grows_ret {A} (a : A) : grows (ret a).
Proof. intro db. apply extends_refl. Qed.

Lemma grows_raise {A} e : grows (@raise A e).
Proof. intro db. apply extends_refl. Qed.

Lemma grows_bind {A B} (m : Py A) (k : A -> Py B) :
  grows m -> (forall a, grows (k a)) -> grows (bind m k).
Proof.
  intros Hm Hk db. unfold bind. specialize (Hm db).
  destruct (m db) as [db' [a|e]]; simpl in *.
  - eapply extends_trans; [exact Hm | apply Hk].
  - exact Hm.
Qed.

Lemma grows_for_in {A} (xs : list A) (body : A -> Py unit) :
  (forall x, In x xs -> grows (body x)) -> grows (for_in xs body).
Proof.
  induction xs as [|x xs IH]; intros H; simpl.
  - apply grows_ret.
  - apply grows_bind.
    + apply H. now left.
    + intros _. apply IH. intros y Hy. apply H. now right.
Qed.

Lemma grows_save_or_remove {A} (eqb : A -> A -> bool) (save : A -> Py unit) :
  (forall x, grows (save x)) ->
  forall i lst, grows (save_or_remove eqb save i lst).
Proof.
  intros Hsave i lst db.
  funelim (save_or_remove eqb save i lst db); try rewrite <- Heqcall;
    try match goal with
        | Heq : save ?x ?d = _ |- _ =>
            pose proof (Hsave x d) as Hstep; rewrite Heq in Hstep
        end;
    simpl in *;
    first [ apply extends_refl
          | exact Hstep
          | eapply extends_trans; [exact Hstep | auto] ].
Qed.

Lemma grows_insert_room name type capacity :
  (forall id, PR (mk_room_row id name type capacity)) ->
  grows (insert_room name type capacity).
Proof.
  intros H db. unfold insert_room.
  destruct (has_room name db); simpl.
  - apply extends_refl.
  - repeat split; simpl.
    + eexists. split; [reflexivity|]. split; repeat constructor; [apply H|].
      simpl. apply Forall_forall. intros r0 Hr0. apply next_id_above.
      now apply in_map.
    + exists []. rewrite app_nil_r. split; auto.
Qed.

Lemma grows_insert_person name type accomodation :
  (forall id, PP (mk_person_row id name type accomodation)) ->
  grows (insert_person name type accomodation).
Proof.
  intros H db. unfold insert_person.
  destruct (has_person name db); simpl.
  - apply extends_refl.
  - repeat split; simpl.
    + exists []. rewrite app_nil_r. repeat split; auto.
    + eexists. split; [reflexivity | repeat constructor; apply H].
Qed.

End Growth.

Lemma extends_weaken (PR PR' : room_row -> Prop) (PP PP' : person_row -> Prop)
    db db' :
  (forall r, PR r -> PR' r) -> (forall p, PP p -> PP' p) ->
  extends PR PP db db' -> extends PR' PP' db db'.
Proof.
  intros HR HP [[r (Hr & Fr & Gr)] [[p [Hp Fp]] Ha]].
  repeat split; auto.
  - exists r. repeat split; auto. eapply Forall_impl; eauto.
  - exists p. split; auto. eapply Forall_impl; eauto.
Qed.

(** ** The rows each method writes *)

(** A room row as [create_rooms room_type rooms] writes it. *)
Definition room_of (ty : string) (names : list string) (r : room_row) : Prop :=
  In (room_name r) names /\
  (ty = "office" /\ room_type r = "O" /\ room_capacity r = 6 \/
   ty = "living_space" /\ room_type r = "L" /\ room_capacity r = 4).

(** A person row of type [ty] with accommodation flag [flag] and a name
    among [names]. *)
Definition person_of (ty flag : string) (names : list string) (p : person_row)
  : Prop :=
  In (person_name p) names /\ person_type p = ty /\ person_accomodation p = flag.

Definition no_room (r : room_row) : Prop := False.
Definition no_person (p : person_row) : Prop := False.

Lemma create_rooms_extends ty names db :
  extends (room_of ty names) no_person db
          (fst (Facility.create_rooms ty names db)).
Proof.
  unfold Facility.create_rooms.
  destruct (String.eqb_spec ty "living_space") as [Hl|Hl];
    [|destruct (String.eqb_spec ty "office") as [Ho|Ho]]; simpl.
  - apply grows_for_in. intros x Hx db'.
    change (extends (room_of ty names) no_person db'
              (fst (insert_room x "L" 4 db'))).
    apply grows_insert_room. intros id. split; simpl; auto.
  - apply grows_for_in. intros x Hx db'.
    change (extends (room_of ty names) no_person db'
              (fst (insert_room x "O" 6 db'))).
    apply grows_insert_room. intros id. split; simpl; auto.
  - apply extends_refl.
Qed.

Lemma add_fellows_extends fellows accomodation db :
  extends no_room
          (person_of "F"
             (if String.eqb (PyStr.lower accomodation) "y" then "Y" else "N")
             fellows)
          db (fst (Facility.add_fellows fellows accomodation db)).
Proof.
  unfold Facility.add_fellows. apply grows_for_in. intros x Hx.
  apply grows_insert_person. intros id. repeat split; auto.
Qed.

Lemma add_staff_extends staff db :
  extends no_room (person_of "S" "N" staff) db
          (fst (Facility.add_staff staff db)).
Proof.
  unfold Facility.add_staff. apply grows_for_in. intros x Hx.
  apply grows_insert_person. intros id. repeat split; auto.
Qed.

(** A person row as [load_people] writes it: a fellow with whatever stands
    after [FELLOW] on the line, or a staff member with ['N']. *)
Definition loaded_person (p : person_row) : Prop :=
  person_type p = "F" \/ person_type p = "S" /\ person_accomodation p = "N".

Lemma read_people_pure lines : forall fellows staff db,
  fst (Facility.read_people lines fellows staff db) = db.
Proof.
  induction lines as [|line lines IH]; intros fellows staff db; simpl.
  - reflexivity.
  - destruct (PyStr.contains "FELLOW" line).
    + destruct (map PyStr.strip (PyStr.split line "FELLOW")) as [|d0 [|d1 l]];
        auto.
    + destruct (PyStr.contains "STAFF" line); auto.
      destruct (map PyStr.strip (PyStr.split line "STAFF")) as [|d0 l]; auto.
Qed.

Lemma load_people_extends lines db :
  extends no_room loaded_person db (fst (Facility.load_people lines db)).
Proof.
  revert db. unfold Facility.load_people. apply grows_bind.
  - intros db. rewrite read_people_pure. apply extends_refl.
  - intros [fellows staff]. apply grows_bind.
    + apply grows_save_or_remove. intros [name accomodation].
      apply grows_insert_person. intros id. now left.
    + intros fellows'. apply grows_bind.
      * apply grows_save_or_remove. intros member.
        apply grows_insert_person. intros id. now right.
      * intros staff'. apply grows_bind; [|intros; apply grows_ret].
        intros db. apply extends_refl.
Qed.

(** A room row as the program writes it: the capacity goes with the type. *)
Definition written_room (r : room_row) : Prop :=
  room_type r = "O" /\ room_capacity r = 6 \/
  room_type r = "L" /\ room_capacity r = 4.

Lemma run_extends c db : extends written_room loaded_person db (run c db).
Proof.
  destruct c as [ty names|fellows acc|staff|person new_room|lines]; simpl.
  - eapply extends_weaken; [| |apply create_rooms_extends].
    + intros r [_ [[_ H]|[_ H]]]; [left|right]; exact H.
    + intros p [].
  - eapply extends_weaken; [| |apply add_fellows_extends].
    + intros r [].
    + intros p [_ [H _]]. now left.
  - eapply extends_weaken; [| |apply add_staff_extends].
    + intros r [].
    + intros p [_ H]. now right.
  - apply extends_refl.
  - eapply extends_weaken; [| |apply load_people_extends].
    + intros r [].
    + auto.
Qed.

Lemma run_all_extends calls : forall db,
  extends written_room loaded_person db (run_all calls db).
Proof.
  induction calls as [|c calls IH]; intros db; simpl.
  - apply extends_refl.
  - eapply extends_trans; [apply run_extends | apply IH].
Qed.

(** ** Occupancy *)

(** Every room of the store holds at most as many occupants as its
    capacity. *)
Definition within_capacity (db : Database) : Prop :=
  Forall (fun room =>
            Z.of_nat (length (occupants_of db (room_id room)))
            <= room_capacity room)
         (rooms_table db).

(** [room_id ... REFERENCES rooms (id)]: every row of [people_rooms] names
    a room of the rooms table. *)
Definition assignments_refer_to_rooms (db : Database) : Prop :=
  Forall (fun a => In (pr_room_id a) (map room_id (rooms_table db)))
         (people_rooms_table db).

Lemma fresh_room_empty db r :
  assignments_refer_to_rooms db -> fresh_room db r ->
  occupants_of db (room_id r) = [].
Proof.
  unfold assignments_refer_to_rooms, fresh_room, occupants_of.
  intros Href Hfresh. rewrite Forall_forall in Href, Hfresh.
  induction (people_rooms_table db) as [|a l IH]; simpl in *; [reflexivity|].
  destruct (Z.eqb_spec (pr_room_id a) (room_id r)) as [E|E].
  - exfalso. destruct (proj1 (in_map_iff _ _ _) (Href a (or_introl eq_refl)))
      as (r0 & Hid & Hr0).
    specialize (Hfresh r0 Hr0). lia.
  - apply IH. intros x Hx. apply Href. now right.
Qed.

Lemma extends_within_capacity PP db db' :
  extends written_room PP db db' ->
  within_capacity db /\ assignments_refer_to_rooms db ->
  within_capacity db' /\ assignments_refer_to_rooms db'.
Proof.
  intros [(added & Hr & Fw & Ff) [_ Ha]] [Hcap Href].
  unfold within_capacity, assignments_refer_to_rooms, occupants_of in *.
  rewrite Ha, Hr. split.
  - apply Forall_app. split; [exact Hcap|].
    rewrite Forall_forall in Fw, Ff. apply Forall_forall. intros r Hin.
    pose proof (fresh_room_empty db r Href (Ff r Hin)) as He.
    unfold occupants_of in He. rewrite He. simpl.
    destruct (Fw r Hin) as [[_ H]|[_ H]]; lia.
  - eapply Forall_impl; [|exact Href]. intros a Hin.
    rewrite map_app. apply in_or_app. now left.
Qed.

Lemma run_all_within_capacity calls : forall db,
  within_capacity db /\ assignments_refer_to_rooms db ->
  within_capacity (run_all calls db) /\
  assignments_refer_to_rooms (run_all calls db).
Proof.
  induction calls as [|c calls IH]; intros db H; simpl; [exact H|].
  apply IH. eapply extends_within_capacity; [apply run_extends | exact H].
Qed.

(** ** Reading the file *)

Lemma split_from_nonempty sep s : forall skip cur,
  PyStr.split_from sep skip cur s <> [].
Proof.
  induction s as [|c s IH]; intros skip cur; cbn [PyStr.split_from].
  - discriminate.
  - destruct skip; [destruct (prefix sep (String c s))|];
      first [apply IH | discriminate].
Qed.

(** A line that holds the separator splits into two chunks at least, so
    the reads [data[0]] and [data[1]] are in range. *)
Lemma split_two_chunks sep s :
  sep <> EmptyString -> PyStr.contains sep s = true ->
  exists d0 d1 l, PyStr.split s sep = d0 :: d1 :: l.
Proof.
  intros Hsep. unfold PyStr.split. generalize (@nil ascii).
  induction s as [|c s IH]; intros cur H;
    cbn [PyStr.split_from PyStr.contains] in *.
  - destruct sep; [congruence | discriminate].
  - destruct (prefix sep (String c s)) eqn:Hp.
    + pose proof (split_from_nonempty sep s (String.length sep - 1) []) as Hn.
      destruct (PyStr.split_from sep (String.length sep - 1) [] s) as [|d1 l];
        [congruence|]. eauto.
    + simpl in H. apply IH. exact H.
Qed.

Definition malformed (line : string) : bool :=
  negb (PyStr.contains "FELLOW" line) && negb (PyStr.contains "STAFF" line).

Lemma read_people_malformed lines : forall fellows staff db,
  existsb malformed lines = true ->
  Facility.read_people lines fellows staff db
  = (db, Raised (ValueError "Invalid Input File!")).
Proof.
  induction lines as [|line lines IH]; intros fellows staff db H; simpl in *.
  - discriminate.
  - unfold malformed in H at 1.
    destruct (PyStr.contains "FELLOW" line) eqn:Hf.
    + destruct (split_two_chunks "FELLOW" line ltac:(discriminate) Hf)
        as (d0 & d1 & l & Hs).
      rewrite Hs. simpl in *. apply IH. exact H.
    + destruct (PyStr.contains "STAFF" line) eqn:Hst; [|reflexivity].
      pose proof (split_from_nonempty "STAFF" line 0 []) as Hn.
      unfold PyStr.split.
      destruct (PyStr.split_from "STAFF" 0 [] line) as [|d0 l]; [congruence|].
      simpl in *. apply IH. exact H.
Qed.

(** ** Names that are already there *)

Lemma has_room_insert n name type capacity db :
  has_room n db = true ->
  has_room n (fst (insert_room name type capacity db)) = true.
Proof.
  intros H. unfold insert_room. destruct (has_room name db); simpl; auto.
  unfold has_room in *. simpl. rewrite existsb_app, H. reflexivity.
Qed.

Lemma has_person_insert n name type accomodation db :
  has_person n db = true ->
  has_person n (fst (insert_person name type accomodation db)) = true.
Proof.
  intros H. unfold insert_person. destruct (has_person name db); simpl; auto.
  unfold has_person in *. simpl. rewrite existsb_app, H. reflexivity.
Qed.

Lemma for_in_insert_room_duplicate type capacity n names : forall db,
  In n names -> has_room n db = true ->
  snd (for_in names (fun x => insert_room x type capacity) db)
  = Raised IntegrityError.
Proof.
  induction names as [|x names IH]; intros db Hin Hn; [destruct Hin|].
  simpl. unfold bind.
  pose proof (has_room_insert n x type capacity db Hn) as Hn'.
  unfold insert_room in *. destruct (has_room x db) eqn:Hx; [reflexivity|].
  apply IH; [|exact Hn']. destruct Hin as [->|Hin]; [congruence | exact Hin].
Qed.

Lemma for_in_insert_person_duplicate type accomodation n names : forall db,
  In n names -> has_person n db = true ->
  snd (for_in names (fun x => insert_person x type accomodation) db)
  = Raised IntegrityError.
Proof.
  induction names as [|x names IH]; intros db Hin Hn; [destruct Hin|].
  simpl. unfold bind.
  pose proof (has_person_insert n x type accomodation db Hn) as Hn'.
  unfold insert_person in *. destruct (has_person x db) eqn:Hx; [reflexivity|].
  apply IH; [|exact Hn']. destruct Hin as [->|Hin]; [congruence | exact Hin].
Qed.

(** ** Example stores *)

(** The office [Valhalla], the living space [Python] and the staff member
    [SHERLOCK HOLMES]. *)
Definition amity : Database :=
  run (AddStaff ["SHERLOCK HOLMES"])
      (run (CreateRooms "living_space" ["Python"])
           (run (CreateRooms "office" ["Valhalla"]) intialize_db)).

(** The same store with an allocation written by hand, as no method writes
    one: [SHERLOCK HOLMES] in the office [Valhalla]. *)
Definition amity_allocated : Database :=
  {| rooms_table := rooms_table amity;
     people_table := people_table amity;
     people_rooms_table := [mk_people_rooms_row 1 1 1] |}.

(** Five fellows for one living space: all five are saved, with the flag
    worked out from the argument, and none is given a room. *)
Example add_fellows_five :
  let db := run (AddFellows ["ANN"; "BOB"; "CAT"; "DAN"; "EVE"] "Y") amity in
  map (fun p => (person_name p, person_type p, person_accomodation p))
      (people_table db)
  = [("SHERLOCK HOLMES", "S", "N"); ("ANN", "F", "Y"); ("BOB", "F", "Y");
     ("CAT", "F", "Y"); ("DAN", "F", "Y"); ("EVE", "F", "Y")] /\
  people_rooms_table db = [] /\
  map (fun p => person_accomodation p)
      (people_table (run (AddFellows ["FAY"] "yes") intialize_db)) = ["N"].
Proof. vm_compute. repeat split. Qed.

(** A file of three well-formed lines: what follows [STAFF] on a line is
    dropped, what follows [FELLOW] is stored as it stands. *)
Example load_people_three_lines :
  map (fun p => (person_name p, person_type p, person_accomodation p))
      (people_table
         (run (LoadPeople ["OLUWAFEMI SULE FELLOW Y" ++ nl;
                           "DOMINIC WALTERS STAFF Y" ++ nl;
                           "SIMON PATTERSON FELLOW" ++ nl]) intialize_db))
  = [("OLUWAFEMI SULE", "F", "Y"); ("SIMON PATTERSON", "F", "");
     ("DOMINIC WALTERS", "S", "N")].
Proof. vm_compute. reflexivity. Qed.

(** White space is what [str.strip()] takes for it: a no-break space
    before a name and a next-line character after it are cut off like the
    blanks and the line end. *)
Example read_people_no_break_space :
  Facility.read_people
    [String (ascii_of_nat 160) "ANN STAFF" ++ nl;
     "BOB " ++ String (ascii_of_nat 133) "FELLOW Y" ++ nl] [] [] intialize_db
  = (intialize_db, Returned ([("BOB", "Y")], ["ANN"])).
Proof. vm_compute. reflexivity. Qed.

(** * Properties *)

(** C1. From a new database, and from any store in which every room is
    within its capacity and every allocation names a room of the store,
    any sequence of calls (creating rooms, adding fellows or staff,
    loading a file, reallocating) leads to a store in which the number of
    occupants of every room is at most the capacity of the room. *)
Theorem occupants_within_capacity calls db room :
  db = intialize_db \/ within_capacity db /\ assignments_refer_to_rooms db ->
  In room (rooms_table (run_all calls db)) ->
  Z.of_nat (length (occupants_of (run_all calls db) (room_id room)))
  <= room_capacity room.
Proof.
  intros Hdb Hin.
  assert (H : within_capacity db /\ assignments_refer_to_rooms db).
  { destruct Hdb as [->|H]; [|exact H]. split; constructor. }
  apply (run_all_within_capacity calls) in H. destruct H as [H _].
  unfold within_capacity in H. rewrite Forall_forall in H. now apply H.
Qed.

Lemma occupants_within_capacity_witness :
  let calls := [CreateRooms "office" ["Krypton"];
                LoadPeople ["OLUWAFEMI SULE FELLOW Y" ++ nl];
                ReallocatePerson "SHERLOCK HOLMES" "Krypton"] in
  let valhalla := mk_room_row 1 "Valhalla" "O" 6 in
  (within_capacity amity_allocated /\
   assignments_refer_to_rooms amity_allocated) /\
  In valhalla (rooms_table (run_all calls amity_allocated)) /\
  occupants_of (run_all calls amity_allocated) 1 = [1] /\
  Z.of_nat (length (occupants_of (run_all calls amity_allocated) 1)) <= 6.
Proof.
  intros calls valhalla.
  assert (H : within_capacity amity_allocated /\
              assignments_refer_to_rooms amity_allocated).
  { split; repeat constructor; simpl; lia. }
  split; [exact H|]. split; [left; reflexivity|]. split; [reflexivity|].
  apply (occupants_within_capacity calls amity_allocated valhalla).
  - right. exact H.
  - left. reflexivity.
Defined.

(** C3, as the code has it. A file with a line that holds neither
    [FELLOW] nor [STAFF] makes [load_people] raise
    [ValueError('Invalid Input File!')] while it is still reading, before
    anything is saved: the store is left as it was, and no line of the
    file, before or after that line, is committed. *)
Theorem load_people_malformed_commits_nothing lines db :
  existsb malformed lines = true ->
  Facility.load_people lines db
  = (db, Raised (ValueError "Invalid Input File!")).
Proof.
  intros H. unfold Facility.load_people, bind.
  rewrite (read_people_malformed lines [] [] db H). reflexivity.
Qed.

Lemma load_people_malformed_commits_nothing_witness :
  existsb malformed ["OLUWAFEMI SULE FELLOW Y" ++ nl; "DOMINIC WALTERS" ++ nl]
  = true /\
  Facility.load_people
    ["OLUWAFEMI SULE FELLOW Y" ++ nl; "DOMINIC WALTERS" ++ nl] amity
  = (amity, Raised (ValueError "Invalid Input File!")).
Proof.
  split; [reflexivity|].
  apply (load_people_malformed_commits_nothing
           ["OLUWAFEMI SULE FELLOW Y" ++ nl; "DOMINIC WALTERS" ++ nl] amity).
  reflexivity.
Defined.

(** C3, as stated, fails. The first line of this file is a well-formed
    fellow record, which loaded alone is saved; with a malformed second
    line the load raises and the fellow of the first line is not in the
    store: nothing of the lines before the malformed one was committed. *)
Lemma load_people_malformed_not_partial :
  has_person "OLUWAFEMI SULE"
    (fst (Facility.load_people ["OLUWAFEMI SULE FELLOW Y" ++ nl] intialize_db))
  = true /\
  snd (Facility.load_people
         ["OLUWAFEMI SULE FELLOW Y" ++ nl; "DOMINIC WALTERS" ++ nl]
         intialize_db)
  = Raised (ValueError "Invalid Input File!") /\
  has_person "OLUWAFEMI SULE"
    (fst (Facility.load_people
            ["OLUWAFEMI SULE FELLOW Y" ++ nl; "DOMINIC WALTERS" ++ nl]
            intialize_db))
  = false.
Proof. vm_compute. repeat split. Qed.

(** C4 at a failing input. [SHERLOCK HOLMES] is in the store; the file
    names him again and then a new staff member. The load returns, but the
    handler takes the duplicate out of the list the loop is iterating, the
    iterator steps over the entry that moved into its place, and the new
    name is never saved; the list printed as the staff loaded holds the
    very name that was not saved, and the skipped entry is recorded
    nowhere. *)
Theorem load_people_skips_entry_after_duplicate :
  let lines := ["SHERLOCK HOLMES STAFF" ++ nl; "DOMINIC WALTERS STAFF" ++ nl] in
  has_person "SHERLOCK HOLMES" amity = true /\
  has_person "DOMINIC WALTERS" amity = false /\
  fst (Facility.load_people lines amity) = amity /\
  exists out,
    snd (Facility.load_people lines amity) = Returned out /\
    printed_fellows out = [] /\
    printed_staff out = ["DOMINIC WALTERS"].
Proof.
  vm_compute. repeat split. eexists. repeat split.
Qed.

(** C5, as the code has it. [create_rooms], [add_fellows] and [add_staff]
    do not catch what the storage layer raises: a call with a recognised
    room type whose list holds a name that is already in the table ends
    with the [IntegrityError] of the storage layer itself. *)
Theorem duplicate_name_raises_IntegrityError name names ty accomodation db :
  In name names ->
  ty = "office" \/ ty = "living_space" ->
  (has_room name db = true ->
   snd (Facility.create_rooms ty names db) = Raised IntegrityError) /\
  (has_person name db = true ->
   snd (Facility.add_fellows names accomodation db) = Raised IntegrityError /\
   snd (Facility.add_staff names db) = Raised IntegrityError).
Proof.
  intros Hin Hty. split; [intros Hn | intros Hn; split].
  - destruct Hty as [-> | ->].
    + exact (for_in_insert_room_duplicate "O" 6 name names db Hin Hn).
    + exact (for_in_insert_room_duplicate "L" 4 name names db Hin Hn).
  - exact (for_in_insert_person_duplicate "F" _ name names db Hin Hn).
  - exact (for_in_insert_person_duplicate "S" "N" name names db Hin Hn).
Qed.

Lemma duplicate_name_raises_IntegrityError_witness :
  let db := run (AddStaff ["Valhalla"]) amity in
  In "Valhalla" ["Krypton"; "Valhalla"] /\
  has_room "Valhalla" db = true /\
  has_person "Valhalla" db = true /\
  snd (Facility.create_rooms "office" ["Krypton"; "Valhalla"] db)
  = Raised IntegrityError /\
  snd (Facility.add_fellows ["Krypton"; "Valhalla"] "Y" db)
  = Raised IntegrityError /\
  snd (Facility.add_staff ["Krypton"; "Valhalla"] db) = Raised IntegrityError.
Proof.
  intros db.
  destruct (duplicate_name_raises_IntegrityError
              "Valhalla" ["Krypton"; "Valhalla"] "office" "Y" db)
    as [Hroom Hperson].
  - right; left; reflexivity.
  - left; reflexivity.
  - destruct (Hperson eq_refl) as [Hf Hs].
    split; [right; left; reflexivity|].
    split; [reflexivity|]. split; [reflexivity|].
    split; [exact (Hroom eq_refl)|]. split; [exact Hf | exact Hs].
Defined.

(** C5, as stated, fails: creating the office [Valhalla] a second time,
    and adding [SHERLOCK HOLMES] a second time, hands the caller the raw
    [IntegrityError] of the storage layer, not a translated error. *)
Lemma duplicate_name_not_translated :
  snd (Facility.create_rooms "office" ["Valhalla"] amity)
  = Raised IntegrityError /\
  snd (Facility.add_staff ["SHERLOCK HOLMES"] amity) = Raised IntegrityError /\
  snd (Facility.add_fellows ["SHERLOCK HOLMES"] "Y" amity)
  = Raised IntegrityError.
Proof. vm_compute. repeat split. Qed.

(** C6. [create_rooms] with a room type other than [living_space] and
    [office] raises [ValueError('Invalid Room Type')] before any
    statement is issued: the store is left as it was and no room of the
    list is saved. *)
Theorem create_rooms_invalid_type ty names db :
  ty <> "living_space" -> ty <> "office" ->
  Facility.create_rooms ty names db = (db, Raised (ValueError "Invalid Room Type")).
Proof.
  intros Hl Ho. unfold Facility.create_rooms.
  apply String.eqb_neq in Hl, Ho. rewrite Hl, Ho. reflexivity.
Qed.

Lemma create_rooms_invalid_type_witness :
  "kitchen" <> "living_space" /\ "kitchen" <> "office" /\
  Facility.create_rooms "kitchen" ["Narnia"; "Krypton"] amity
  = (amity, Raised (ValueError "Invalid Room Type")).
Proof.
  split; [discriminate|]. split; [discriminate|].
  apply (create_rooms_invalid_type "kitchen" ["Narnia"; "Krypton"] amity);
    discriminate.
Defined.

(** C8. [available_rooms] reports every room of the table, in order, with
    its name, type and capacity, and as available space the capacity
    minus the number of occupants of that room. *)
Theorem available_space_is_capacity_minus_occupants db :
  exists infos,
    Facility.available_rooms db = (db, Returned infos) /\
    Forall2 (fun room info =>
               info_name info = room_name room /\
               info_type info = room_type room /\
               info_capacity info = room_capacity room /\
               info_available_space info
               = room_capacity room
                 - Z.of_nat (length (occupants_of db (room_id room))))
            (rooms_table db) infos.
Proof.
  unfold Facility.available_rooms. eexists. split; [reflexivity|].
  induction (rooms_table db) as [|room l IH]; simpl; constructor; auto.
  simpl. unfold count_people_rooms, occupants_of. rewrite length_map. auto.
Qed.

(** C9 at a failing input. The staff member [SHERLOCK HOLMES] and the
    living space [Python] are in the store; the reallocation of the one
    into the other, which is to fail with a type mismatch, returns
    normally: the body of the method is [pass], no error of any kind
    reaches the caller, and the store is left as it was. *)
Theorem reallocate_staff_to_living_space_no_error :
  existsb (fun p => String.eqb (person_name p) "SHERLOCK HOLMES"
                    && String.eqb (person_type p) "S") (people_table amity)
  = true /\
  existsb (fun r => String.eqb (room_name r) "Python"
                    && String.eqb (room_type r) "L") (rooms_table amity)
  = true /\
  Facility.reallocate_person "SHERLOCK HOLMES" "Python" amity
  = (amity, Returned tt) /\
  (forall e, snd (Facility.reallocate_person "SHERLOCK HOLMES" "Python" amity)
             <> Raised e).
Proof.
  split; [reflexivity|]. split; [reflexivity|]. split; [reflexivity|].
  intros e. discriminate.
Qed.

(** * Further properties of the code *)

(** ** Invariants of the store *)

Section Invariant.

Variable I : Database -> Prop.

(** A computation that leaves a store with [I] in a store with [I],
    whether it returns or raises. *)
Definition preserves {A} (m : Py A) : Prop :=
  forall db, I db -> I (fst (m db)).

Lemma preserves_ret {A} (a : A) : preserves (ret a).
Proof. intros db H. exact H. Qed.

Lemma preserves_bind {A B} (m : Py A) (k : A -> Py B) :
  preserves m -> (forall a, preserves (k a)) -> preserves (bind m k).
Proof.
  intros Hm Hk db H. unfold bind. specialize (Hm db H).
  destruct (m db) as [db' [a|e]]; simpl in *; [apply Hk|]; exact Hm.
Qed.

Lemma preserves_for_in {A} (xs : list A) (body : A -> Py unit) :
  (forall x, preserves (body x)) -> preserves (for_in xs body).
Proof.
  intros Hb. induction xs as [|x xs IH]; simpl.
  - apply preserves_ret.
  - apply preserves_bind; [apply Hb | intros _; exact IH].
Qed.

Lemma preserves_save_or_remove {A} (eqb : A -> A -> bool)
    (save : A -> Py unit) :
  (forall x, preserves (save x)) ->
  forall i lst, preserves (save_or_remove eqb save i lst).
Proof.
  intros Hsave i lst db.
  funelim (save_or_remove eqb save i lst db); try rewrite <- Heqcall;
    intros HI;
    try match goal with
        | Heq : save ?x ?d = _ |- _ =>
            pose proof (Hsave x d HI) as Hstep; rewrite Heq in Hstep
        end;
    simpl in *; auto.
Qed.

Hypothesis insert_room_I :
  forall name type capacity, preserves (insert_room name type capacity).
Hypothesis insert_person_I :
  forall name type accomodation,
    preserves (insert_person name type accomodation).

(** What the two [INSERT] statements preserve, every call preserves. *)
Lemma run_preserves c db : I db -> I (run c db).
Proof.
  destruct c as [ty names|fellows acc|staff|person new_room|lines]; simpl.
  - unfold Facility.create_rooms.
    destruct (negb _); [intros H; exact H|].
    apply preserves_for_in. intros x. apply preserves_bind.
    + destruct (String.eqb ty "living_space"); [apply preserves_ret|].
      destruct (String.eqb ty "office"); [apply preserves_ret|].
      intros d H; exact H.
    + intros [n|n]; apply insert_room_I.
  - apply preserves_for_in. intros x. apply insert_person_I.
  - apply preserves_for_in. intros x. apply insert_person_I.
  - intros H; exact H.
  - unfold Facility.load_people. apply preserves_bind.
    + intros d H. rewrite read_people_pure. exact H.
    + intros [fellows staff]. apply preserves_bind.
      * apply preserves_save_or_remove. intros [n a]. apply insert_person_I.
      * intros fellows'. apply preserves_bind.
        -- apply preserves_save_or_remove. intros m. apply insert_person_I.
        -- intros staff'. apply preserves_bind; [|intros; apply preserves_ret].
           intros d H. exact H.
Qed.

Lemma run_all_preserves calls : forall db, I db -> I (run_all calls db).
Proof.
  induction calls as [|c calls IH]; intros db H; simpl; [exact H|].
  apply IH. apply run_preserves. exact H.
Qed.

End Invariant.

(** ** Unique names *)

Lemma has_room_In n db :
  has_room n db = true <-> In n (map room_name (rooms_table db)).
Proof.
  unfold has_room. rewrite existsb_exists, in_map_iff. split.
  - intros (r & Hr & E). apply String.eqb_eq in E. eauto.
  - intros (r & E & Hr). exists r. split; [exact Hr|]. now apply String.eqb_eq.
Qed.

Lemma has_person_In n db :
  has_person n db = true <-> In n (map person_name (people_table db)).
Proof.
  unfold has_person. rewrite existsb_exists, in_map_iff. split.
  - intros (p & Hp & E). apply String.eqb_eq in E. eauto.
  - intros (p & E & Hp). exists p. split; [exact Hp|]. now apply String.eqb_eq.
Qed.

(** The [UNIQUE] columns: no two rooms bear one name, and no two people,
    whatever their type. *)
Definition names_unique (db : Database) : Prop :=
  NoDup (map room_name (rooms_table db)) /\
  NoDup (map person_name (people_table db)).

Lemma NoDup_snoc {A} (l : list A) x : NoDup l -> ~ In x l -> NoDup (l ++ [x]).
Proof.
  intros Hl Hx. induction Hl as [|y l Hy Hl IH]; simpl.
  - constructor; [intros []|constructor].
  - constructor.
    + rewrite in_app_iff. intros [H|[H|[]]]; [auto|]. subst. apply Hx. now left.
    + apply IH. intros H. apply Hx. now right.
Qed.

Lemma insert_room_names_unique name type capacity :
  preserves names_unique (insert_room name type capacity).
Proof.
  intros db [Hr Hp]. unfold insert_room.
  destruct (has_room name db) eqn:E; simpl; [split; assumption|].
  split; [|exact Hp]. simpl. rewrite map_app. simpl.
  apply NoDup_snoc; [exact Hr|]. rewrite <- has_room_In. congruence.
Qed.

Lemma insert_person_names_unique name type accomodation :
  preserves names_unique (insert_person name type accomodation).
Proof.
  intros db [Hr Hp]. unfold insert_person.
  destruct (has_person name db) eqn:E; simpl; [split; assumption|].
  split; [exact Hr|]. simpl. rewrite map_app. simpl.
  apply NoDup_snoc; [exact Hp|]. rewrite <- has_person_In. congruence.
Qed.

(** X1. Names stay unique: from a store in which no two rooms and no two
    people share a name, a new database in particular, any sequence of
    calls leads to a store with the same property; a fellow and a staff
    member cannot share a name either. *)
Theorem names_stay_unique calls db :
  names_unique db -> names_unique (run_all calls db).
Proof.
  apply run_all_preserves.
  - apply insert_room_names_unique.
  - apply insert_person_names_unique.
Qed.

Lemma names_stay_unique_witness :
  let calls := [CreateRooms "office" ["Valhalla"; "Krypton"];
                AddFellows ["SHERLOCK HOLMES"; "ANN"] "Y";
                LoadPeople ["ANN STAFF" ++ nl; "BOB STAFF" ++ nl]] in
  names_unique amity /\ names_unique (run_all calls amity).
Proof.
  intros calls.
  assert (H : names_unique amity).
  { split; simpl; repeat constructor; simpl; intuition discriminate. }
  split; [exact H|]. apply (names_stay_unique calls amity). exact H.
Defined.

(** ** Creating rooms and adding people, one [INSERT] after the other *)

(** The columns of a row that the program sets itself. *)
Definition room_fields (r : room_row) : string * string * Z :=
  (room_name r, room_type r, room_capacity r).

Definition person_fields (p : person_row) : string * string * string :=
  (person_name p, person_type p, person_accomodation p).

Lemma has_room_inserted n name type capacity db :
  has_room name db = false ->
  has_room n (fst (insert_room name type capacity db))
  = has_room n db || String.eqb name n.
Proof.
  intros H. unfold insert_room. rewrite H. unfold has_room. simpl.
  rewrite existsb_app. simpl. now rewrite orb_false_r.
Qed.

Lemma has_person_inserted n name type accomodation db :
  has_person name db = false ->
  has_person n (fst (insert_person name type accomodation db))
  = has_person n db || String.eqb name n.
Proof.
  intros H. unfold insert_person. rewrite H. unfold has_person. simpl.
  rewrite existsb_app. simpl. now rewrite orb_false_r.
Qed.

Lemma for_in_insert_room_prefix type capacity names : forall db,
  let r := for_in names (fun x => insert_room x type capacity) db in
  exists k,
    map room_fields (rooms_table (fst r))
    = (map room_fields (rooms_table db)
       ++ map (fun n => (n, type, capacity)) (firstn k names))%list /\
    people_table (fst r) = people_table db /\
    people_rooms_table (fst r) = people_rooms_table db /\
    (snd r = Returned tt /\ k = length names \/
     snd r = Raised IntegrityError /\
     exists n, nth_error names k = Some n /\
               (has_room n db = true \/ In n (firstn k names))).
Proof.
  induction names as [|x names IH]; intros db; cbn zeta.
  - exists 0%nat. simpl. rewrite app_nil_r. repeat split; auto.
  - simpl. unfold bind.
    pose proof (has_room_inserted) as Hins.
    destruct (has_room x db) eqn:Hx.
    + exists 0%nat. unfold insert_room. rewrite Hx. simpl.
      rewrite app_nil_r. repeat split; auto. right. split; [reflexivity|].
      exists x. auto.
    + remember (fst (insert_room x type capacity db)) as db1 eqn:Edb1.
      assert (E : insert_room x type capacity db = (db1, Returned tt))
        by (subst db1; unfold insert_room; rewrite Hx; reflexivity).
      assert (Hdb1 : map room_fields (rooms_table db1)
                     = (map room_fields (rooms_table db)
                        ++ [(x, type, capacity)])%list /\
                     people_table db1 = people_table db /\
                     people_rooms_table db1 = people_rooms_table db).
      { subst db1. unfold insert_room. rewrite Hx. simpl.
        rewrite map_app. auto. }
      destruct Hdb1 as (Hr1 & Hp1 & Ha1).
      rewrite E. specialize (IH db1). cbn zeta in IH.
      destruct IH as (k & Hr & Hp & Ha & Hout).
      exists (S k). rewrite Hr, Hp, Ha, Hr1, <- app_assoc. simpl.
      repeat split; auto.
      destruct Hout as [[Ho Hk]|[Ho (n & Hn & Hd)]].
      * left. split; [exact Ho | now rewrite Hk].
      * right. split; [exact Ho|]. exists n. split; [exact Hn|].
        rewrite Edb1, (Hins n x type capacity db Hx) in Hd.
        destruct Hd as [Hd|Hd]; [|now right; right].
        apply orb_true_iff in Hd. destruct Hd as [Hd|Hd]; [now left|].
        apply String.eqb_eq in Hd. right. now left.
Qed.

Lemma for_in_insert_room_returns type capacity names : forall db,
  snd (for_in names (fun x => insert_room x type capacity) db) = Returned tt
  <-> NoDup names /\ Forall (fun n => has_room n db = false) names.
Proof.
  induction names as [|x names IH]; intros db; simpl.
  - split; [intros _; split; constructor | reflexivity].
  - unfold bind. destruct (has_room x db) eqn:Hx.
    + unfold insert_room. rewrite Hx. simpl. split; [discriminate|].
      intros [_ H]. inversion H; congruence.
    + assert (E : insert_room x type capacity db
                  = (fst (insert_room x type capacity db), Returned tt))
        by (unfold insert_room; rewrite Hx; reflexivity).
      rewrite E, IH. clear IH E.
      assert (Hins : forall n,
                 has_room n (fst (insert_room x type capacity db)) = false
                 <-> has_room n db = false /\ x <> n).
      { intros n. rewrite (has_room_inserted n x type capacity db Hx).
        rewrite orb_false_iff, String.eqb_neq. reflexivity. }
      rewrite !Forall_forall. split.
      * intros [Hnd Hf]. split.
        -- constructor; [|exact Hnd]. intros Hin.
           apply Hf, Hins in Hin. destruct Hin as [_ Hne]. congruence.
        -- intros n [<-|Hin]; [exact Hx|].
           apply Hf, Hins in Hin. tauto.
      * intros [Hnd Hf]. inversion Hnd; subst. split; [assumption|].
        intros n Hin. apply Hins. split; [apply Hf; now right|].
        intros ->. contradiction.
Qed.

(** Loops whose body saves one person per item: [save x] is the [INSERT]
    of the name [name x] with type [type] and flag [acc x]. *)
Section PersonLoop.

Context {A : Type}.
Variable name : A -> string.
Variable type : string.
Variable acc : A -> string.
Variable save : A -> Py unit.
Hypothesis save_insert : forall x, save x = insert_person (name x) type (acc x).

Lemma for_in_save_prefix items : forall db,
  let r := for_in items save db in
  exists k,
    map person_fields (people_table (fst r))
    = (map person_fields (people_table db)
       ++ map (fun x => (name x, type, acc x)) (firstn k items))%list /\
    rooms_table (fst r) = rooms_table db /\
    people_rooms_table (fst r) = people_rooms_table db /\
    (snd r = Returned tt /\ k = length items \/
     snd r = Raised IntegrityError /\
     exists x, nth_error items k = Some x /\
               (has_person (name x) db = true \/
                In (name x) (map name (firstn k items)))).
Proof.
  induction items as [|x items IH]; intros db; cbn zeta.
  - exists 0%nat. simpl. rewrite app_nil_r. repeat split; auto.
  - simpl. unfold bind. rewrite save_insert.
    destruct (has_person (name x) db) eqn:Hx.
    + exists 0%nat. unfold insert_person. rewrite Hx. simpl.
      rewrite app_nil_r. repeat split; auto. right. split; [reflexivity|].
      exists x. auto.
    + remember (fst (insert_person (name x) type (acc x) db)) as db1 eqn:Edb1.
      assert (E : insert_person (name x) type (acc x) db = (db1, Returned tt))
        by (subst db1; unfold insert_person; rewrite Hx; reflexivity).
      assert (Hdb1 : map person_fields (people_table db1)
                     = (map person_fields (people_table db)
                        ++ [(name x, type, acc x)])%list /\
                     rooms_table db1 = rooms_table db /\
                     people_rooms_table db1 = people_rooms_table db).
      { subst db1. unfold insert_person. rewrite Hx. simpl.
        rewrite map_app. auto. }
      destruct Hdb1 as (Hp1 & Hr1 & Ha1).
      rewrite E. specialize (IH db1). cbn zeta in IH.
      destruct IH as (k & Hp & Hr & Ha & Hout).
      exists (S k). rewrite Hr, Hp, Ha, Hp1, <- app_assoc. simpl.
      repeat split; auto.
      destruct Hout as [[Ho Hk]|[Ho (y & Hy & Hd)]].
      * left. split; [exact Ho | now rewrite Hk].
      * right. split; [exact Ho|]. exists y. split; [exact Hy|].
        rewrite Edb1, (has_person_inserted _ _ type (acc x) db Hx) in Hd.
        destruct Hd as [Hd|Hd]; [|now right; right].
        apply orb_true_iff in Hd. destruct Hd as [Hd|Hd]; [now left|].
        apply String.eqb_eq in Hd. right. now left.
Qed.

Lemma for_in_save_returns items : forall db,
  snd (for_in items save db) = Returned tt
  <-> NoDup (map name items) /\
      Forall (fun x => has_person (name x) db = false) items.
Proof.
  induction items as [|x items IH]; intros db; simpl.
  - split; [intros _; split; constructor | reflexivity].
  - unfold bind. rewrite save_insert.
    destruct (has_person (name x) db) eqn:Hx.
    + unfold insert_person. rewrite Hx. simpl. split; [discriminate|].
      intros [_ H]. inversion H; congruence.
    + assert (E : insert_person (name x) type (acc x) db
                  = (fst (insert_person (name x) type (acc x) db), Returned tt))
        by (unfold insert_person; rewrite Hx; reflexivity).
      rewrite E, IH. clear IH E.
      assert (Hins : forall n,
                 has_person n (fst (insert_person (name x) type (acc x) db))
                 = false
                 <-> has_person n db = false /\ name x <> n).
      { intros n. rewrite (has_person_inserted n _ type (acc x) db Hx).
        rewrite orb_false_iff, String.eqb_neq. reflexivity. }
      rewrite !Forall_forall. split.
      * intros [Hnd Hf]. split.
        -- constructor; [|exact Hnd]. intros Hin.
           apply in_map_iff in Hin. destruct Hin as (y & Ey & Hin).
           apply Hf, Hins in Hin. destruct Hin as [_ Hne]. congruence.
        -- intros y [<-|Hin]; [exact Hx|].
           apply Hf, Hins in Hin. tauto.
      * intros [Hnd Hf]. inversion Hnd; subst. split; [assumption|].
        intros y Hin. apply Hins. split; [apply Hf; now right|].
        intros E. apply H1. rewrite E. now apply in_map.
Qed.

End PersonLoop.

(** With a recognised type, [create_rooms] is the loop of [INSERT]s with
    the letter and the capacity of the type. *)
Lemma create_rooms_loop ty names :
  ty = "office" \/ ty = "living_space" ->
  Facility.create_rooms ty names
  = for_in names
      (fun x => insert_room x (if String.eqb ty "office" then "O" else "L")
                              (if String.eqb ty "office" then 6 else 4)).
Proof. intros [-> | ->]; reflexivity. Qed.

(** C2. A room created as an office is stored with capacity 6 and a room
    created as a living space with capacity 4: [create_rooms] saves the
    names of its list in order, each with the letter and the capacity of
    the type, all of them when the names are new and distinct, and up to
    the first name that is not otherwise.  No call changes a room that is
    stored: after any sequence of calls the rooms of the store are there,
    in place, with the capacity they were created with. *)
Theorem room_capacity_fixed names db calls :
  (let r := Facility.create_rooms "office" names db in
   exists k,
     map room_fields (rooms_table (fst r))
     = (map room_fields (rooms_table db)
        ++ map (fun n => (n, "O", 6)) (firstn k names))%list /\
     (snd r = Returned tt /\ k = length names \/
      snd r = Raised IntegrityError /\
      exists n, nth_error names k = Some n /\
                (has_room n db = true \/ In n (firstn k names)))) /\
  (let r := Facility.create_rooms "living_space" names db in
   exists k,
     map room_fields (rooms_table (fst r))
     = (map room_fields (rooms_table db)
        ++ map (fun n => (n, "L", 4)) (firstn k names))%list /\
     (snd r = Returned tt /\ k = length names \/
      snd r = Raised IntegrityError /\
      exists n, nth_error names k = Some n /\
                (has_room n db = true \/ In n (firstn k names)))) /\
  (exists later,
      rooms_table (run_all calls db) = (rooms_table db ++ later)%list).
Proof.
  split; [|split]; cbn zeta.
  - rewrite (create_rooms_loop "office" names (or_introl eq_refl)).
    destruct (for_in_insert_room_prefix "O" 6 names db)
      as (k & Hr & _ & _ & Hout).
    exists k. split; assumption.
  - rewrite (create_rooms_loop "living_space" names (or_intror eq_refl)).
    destruct (for_in_insert_room_prefix "L" 4 names db)
      as (k & Hr & _ & _ & Hout).
    exists k. split; assumption.
  - destruct (run_all_extends calls db) as [(later & Hr & _) _].
    exists later. exact Hr.
Qed.



(** X3. With a recognised type, [create_rooms] returns without an error
    exactly when the names of its list are pairwise distinct and none of
    them is the name of a room in the store. *)
Theorem create_rooms_returns_iff_fresh ty names db :
  ty = "office" \/ ty = "living_space" ->
  (snd (Facility.create_rooms ty names db) = Returned tt
   <-> NoDup names /\ Forall (fun n => has_room n db = false) names).
Proof.
  intros Hty. rewrite (create_rooms_loop ty names Hty).
  apply for_in_insert_room_returns.
Qed.

Lemma create_rooms_returns_iff_fresh_witness :
  ("office" = "office" \/ "office" = "living_space") /\
  (snd (Facility.create_rooms "office" ["Krypton"; "Narnia"] amity)
   = Returned tt
   <-> NoDup ["Krypton"; "Narnia"] /\
       Forall (fun n => has_room n amity = false) ["Krypton"; "Narnia"]).
Proof.
  split; [left; reflexivity|].
  apply (create_rooms_returns_iff_fresh "office" ["Krypton"; "Narnia"] amity).
  left; reflexivity.
Defined.


(** C10. [add_fellows] works the flag out once and stores it with every
    fellow of the call that it saves: the fellows of the list in order,
    all of them when the names are new and distinct and up to the first
    name that is not otherwise, each with the flag ['Y'] when the argument
    in lower case is ['y'], and each with the flag ['N'] for every other
    argument. *)
Theorem add_fellows_flag fellows accomodation db :
  let r := Facility.add_fellows fellows accomodation db in
  exists k,
    (PyStr.lower accomodation = "y" ->
     map person_fields (people_table (fst r))
     = (map person_fields (people_table db)
        ++ map (fun n => (n, "F", "Y")) (firstn k fellows))%list) /\
    (PyStr.lower accomodation <> "y" ->
     map person_fields (people_table (fst r))
     = (map person_fields (people_table db)
        ++ map (fun n => (n, "F", "N")) (firstn k fellows))%list) /\
    (snd r = Returned tt /\ k = length fellows \/
     snd r = Raised IntegrityError /\
     exists n, nth_error fellows k = Some n /\
               (has_person n db = true \/ In n (firstn k fellows))).
Proof.
  cbn zeta. unfold Facility.add_fellows.
  set (flag := if String.eqb (PyStr.lower accomodation) "y" then "Y" else "N").
  destruct (for_in_save_prefix (fun n => n) "F" (fun _ => flag)
              (fun n => Person_save (Fellow n flag)) (fun n => eq_refl)
              fellows db)
    as (k & Hp & _ & _ & Hout).
  rewrite map_id in Hout. exists k.
  split; [|split; [|exact Hout]]; intros Hy; rewrite Hp; unfold flag.
  - apply String.eqb_eq in Hy. now rewrite Hy.
  - apply String.eqb_neq in Hy. now rewrite Hy.
Qed.


(** X6. [add_staff] and [add_fellows] return without an error exactly
    when the names of the list are pairwise distinct and none of them is
    the name of a person in the store, of either type. *)
Theorem add_people_returns_iff_fresh names accomodation db :
  (snd (Facility.add_staff names db) = Returned tt
   <-> NoDup names /\ Forall (fun n => has_person n db = false) names) /\
  (snd (Facility.add_fellows names accomodation db) = Returned tt
   <-> NoDup names /\ Forall (fun n => has_person n db = false) names).
Proof.
  split.
  - rewrite <- (map_id names) at 2.
    exact (for_in_save_returns (fun n => n) "S" (fun _ => "N")
             (fun n => Person_save (Staff n)) (fun n => eq_refl) names db).
  - rewrite <- (map_id names) at 2.
    exact (for_in_save_returns (fun n => n) "F"
             (fun _ => if String.eqb (PyStr.lower accomodation) "y"
                       then "Y" else "N")
             (fun n => Person_save
                         (Fellow n (if String.eqb (PyStr.lower accomodation) "y"
                                    then "Y" else "N")))
             (fun n => eq_refl) names db).
Qed.

Lemma map_fields_length {A B} (f : A -> B) l l' (added : list B) :
  map f l' = (map f l ++ added)%list ->
  Z.of_nat (length l') = Z.of_nat (length l) + Z.of_nat (length added).
Proof.
  intros H. apply (f_equal (@length B)) in H.
  rewrite length_app, !length_map in H. lia.
Qed.

(** X7. After a [create_rooms] that returned, the property [rooms] is
    larger by the length of the list than it was before. *)
Theorem rooms_counts_created_rooms ty names db :
  snd (Facility.create_rooms ty names db) = Returned tt ->
  exists n,
    snd (Facility.rooms db) = Returned n /\
    snd (Facility.rooms (fst (Facility.create_rooms ty names db)))
    = Returned (n + Z.of_nat (length names)).
Proof.
  intros Hret. exists (Z.of_nat (length (rooms_table db))).
  split; [reflexivity|]. unfold Facility.rooms. simpl. f_equal.
  assert (Hty : ty = "office" \/ ty = "living_space").
  { unfold Facility.create_rooms in Hret.
    destruct (String.eqb_spec ty "living_space"); [now right|].
    destruct (String.eqb_spec ty "office"); [now left | discriminate]. }
  revert Hret. rewrite (create_rooms_loop ty names Hty). intros Hret.
  destruct (for_in_insert_room_prefix
              (if String.eqb ty "office" then "O" else "L")
              (if String.eqb ty "office" then 6 else 4) names db)
    as (k & Hr & _ & _ & [[_ Hk]|[Ho _]]); [|congruence].
  apply map_fields_length in Hr. rewrite Hr, length_map, Hk, firstn_all.
  reflexivity.
Qed.

Lemma rooms_counts_created_rooms_witness :
  snd (Facility.create_rooms "office" ["Krypton"; "Narnia"] amity)
  = Returned tt /\
  exists n,
    snd (Facility.rooms amity) = Returned n /\
    snd (Facility.rooms
           (fst (Facility.create_rooms "office" ["Krypton"; "Narnia"] amity)))
    = Returned (n + 2).
Proof.
  split; [reflexivity|].
  apply (rooms_counts_created_rooms "office" ["Krypton"; "Narnia"] amity).
  reflexivity.
Defined.

(** X8. After an [add_staff] or an [add_fellows] that returned, the
    property [people] is larger by the length of the list than it was
    before. *)
Theorem people_counts_added_people names accomodation db r :
  r = Facility.add_staff names db \/
  r = Facility.add_fellows names accomodation db ->
  snd r = Returned tt ->
  exists n,
    snd (Facility.people db) = Returned n /\
    snd (Facility.people (fst r)) = Returned (n + Z.of_nat (length names)).
Proof.
  intros Hr Hret. exists (Z.of_nat (length (people_table db))).
  split; [reflexivity|]. unfold Facility.people. simpl. f_equal.
  destruct Hr as [-> | ->].
  - change (Facility.add_staff names db)
      with (for_in names (fun x => insert_person x "S" "N") db) in *.
    destruct (for_in_save_prefix (fun n => n) "S" (fun _ => "N")
                (fun x => insert_person x "S" "N") (fun n => eq_refl) names db)
      as (k & Hp & _ & _ & [[_ Hk]|[Ho _]]); [|congruence].
    apply map_fields_length in Hp. rewrite Hp, length_map, Hk, firstn_all.
    reflexivity.
  - set (flag := if String.eqb (PyStr.lower accomodation) "y"
                  then "Y" else "N").
    change (Facility.add_fellows names accomodation db)
      with (for_in names (fun x => insert_person x "F" flag) db) in *.
    destruct (for_in_save_prefix (fun n => n) "F" (fun _ => flag)
                (fun x => insert_person x "F" flag) (fun n => eq_refl) names db)
      as (k & Hp & _ & _ & [[_ Hk]|[Ho _]]); [|congruence].
    apply map_fields_length in Hp. rewrite Hp, length_map, Hk, firstn_all.
    reflexivity.
Qed.

Lemma people_counts_added_people_witness :
  let r := Facility.add_fellows ["ANN"; "BOB"; "CAT"] "y" amity in
  snd r = Returned tt /\
  exists n,
    snd (Facility.people amity) = Returned n /\
    snd (Facility.people (fst r)) = Returned (n + 3).
Proof.
  intros r. split; [reflexivity|].
  apply (people_counts_added_people ["ANN"; "BOB"; "CAT"] "y" amity r).
  - right. reflexivity.
  - reflexivity.
Defined.

(** ** One step of the saving loops of [load_people] *)

Section LoopSteps.

Context {A : Type}.
Variable eqb : A -> A -> bool.
Variable save : A -> Py unit.

(** The iterator is past the end of the list: the loop is over. *)
Lemma save_or_remove_stop i lst db :
  nth_error lst i = None ->
  save_or_remove eqb save i lst db = (db, Returned lst).
Proof.
  intros H. funelim (save_or_remove eqb save i lst db); congruence.
Qed.

(** The item was saved: on to the next index of the same list. *)
Lemma save_or_remove_saved i lst db item db' u :
  nth_error lst i = Some item ->
  save item db = (db', Returned u) ->
  save_or_remove eqb save i lst db = save_or_remove eqb save (S i) lst db'.
Proof.
  intros H Hs. funelim (save_or_remove eqb save i lst db);
    first [congruence | rewrite <- Heqcall; congruence].
Qed.

(** The item was there already: it is taken out of the list, and the
    iterator goes on to the next index of the shortened list. *)
Lemma save_or_remove_removed i lst db item db' lst' :
  nth_error lst i = Some item ->
  save item db = (db', Raised IntegrityError) ->
  list_remove eqb item lst = Some lst' ->
  save_or_remove eqb save i lst db = save_or_remove eqb save (S i) lst' db'.
Proof.
  intros H Hs Hr. funelim (save_or_remove eqb save i lst db);
    first [congruence | rewrite <- Heqcall; congruence].
Qed.

End LoopSteps.

(** ** What [lst.remove(x)] does to the list under the iterator *)

Section ListRemove.

Context {A : Type}.
Variable eqb : A -> A -> bool.
Hypothesis eqb_refl : forall x, eqb x x = true.

Lemma list_remove_found x lst :
  In x lst -> exists lst', list_remove eqb x lst = Some lst'.
Proof.
  induction lst as [|y l IH]; simpl; intros H; [destruct H|].
  destruct (eqb y x) eqn:E; [eauto|].
  destruct H as [->|H]; [rewrite eqb_refl in E; discriminate|].
  destruct (IH H) as [l' ->]. simpl. eauto.
Qed.

Lemma list_remove_incl x lst lst' :
  list_remove eqb x lst = Some lst' -> forall y, In y lst' -> In y lst.
Proof.
  revert lst'. induction lst as [|z l IH]; simpl; intros lst' H y Hy.
  - discriminate.
  - destruct (eqb z x).
    + inversion H; subst. now right.
    + destruct (list_remove eqb x l) as [l'|]; [|discriminate].
      inversion H; subst. destruct Hy as [->|Hy]; [now left|].
      right. now apply (IH l').
Qed.

(** The item read at index [i] is taken out at or before [i]: what lies
    after index [i] of the shortened list is what lay after index [i + 1]
    before, so the item that followed is not read. *)
Lemma list_remove_skipn lst : forall i x lst',
  nth_error lst i = Some x ->
  list_remove eqb x lst = Some lst' ->
  skipn (S i) lst' = skipn (S (S i)) lst.
Proof.
  induction lst as [|y l IH]; intros i x lst' Hi Hr.
  - destruct i; discriminate.
  - simpl in Hr. destruct (eqb y x) eqn:E.
    + inversion Hr; subst. reflexivity.
    + destruct i as [|i]; simpl in Hi.
      * inversion Hi; subst. rewrite eqb_refl in E. discriminate.
      * destruct (list_remove eqb x l) as [l'|] eqn:El; [|discriminate].
        inversion Hr; subst.
        change (skipn (S i) l' = skipn (S (S i)) l). now apply (IH i x).
Qed.

End ListRemove.

Lemma skipn_nth_error {A} (lst : list A) : forall i x,
  nth_error lst i = Some x -> skipn i lst = x :: skipn (S i) lst.
Proof.
  induction lst as [|y l IH]; intros [|i] x H; try discriminate.
  - inversion H. reflexivity.
  - simpl in H. apply (IH i x H).
Qed.

Lemma nth_error_in_range {A} (lst : list A) i x :
  nth_error lst i = Some x -> (i < length lst)%nat.
Proof. intros H. apply nth_error_Some. congruence. Qed.

Lemma In_skipn_incl {A} k (l : list A) x : In x (skipn k l) -> In x l.
Proof.
  intros H. rewrite <- (firstn_skipn k l). apply in_or_app. now right.
Qed.

Lemma skipn_past_end {A} (lst : list A) i :
  nth_error lst i = None -> skipn i lst = [].
Proof. intros H. apply skipn_all2. now apply nth_error_None. Qed.

Lemma tuple_eqb_refl x : tuple_eqb x x = true.
Proof. unfold tuple_eqb. now rewrite !String.eqb_refl. Qed.

(** ** The saving loops of [load_people] *)

Section SavingLoop.

Context {A : Type}.
Variable eqb : A -> A -> bool.
Hypothesis eqb_refl : forall x, eqb x x = true.
Variable name : A -> string.
Variable type : string.
Variable acc : A -> string.
Variable save : A -> Py unit.
Hypothesis save_insert : forall x, save x = insert_person (name x) type (acc x).

(** The three ways a turn of the loop can go. *)
Lemma save_or_remove_cases i lst db :
  nth_error lst i = None /\
  save_or_remove eqb save i lst db = (db, Returned lst)
  \/
  (exists item,
      nth_error lst i = Some item /\ has_person (name item) db = false /\
      save_or_remove eqb save i lst db
      = save_or_remove eqb save (S i) lst (fst (save item db)))
  \/
  (exists item lst',
      nth_error lst i = Some item /\ has_person (name item) db = true /\
      list_remove eqb item lst = Some lst' /\
      save_or_remove eqb save i lst db = save_or_remove eqb save (S i) lst' db).
Proof.
  destruct (nth_error lst i) as [item|] eqn:Hi.
  - right. destruct (has_person (name item) db) eqn:Hx.
    + right. destruct (list_remove_found eqb eqb_refl item lst) as [lst' Hr].
      { eapply nth_error_In; eauto. }
      exists item, lst'. repeat split; auto.
      apply (save_or_remove_removed eqb save i lst db item db lst' Hi); auto.
      rewrite save_insert. unfold insert_person. now rewrite Hx.
    + left. exists item. repeat split; auto.
      apply (save_or_remove_saved eqb save i lst db item _ tt Hi).
      rewrite save_insert. unfold insert_person. now rewrite Hx.
  - left. split; [reflexivity|]. now apply save_or_remove_stop.
Qed.

(** Induction on the distance of the iterator from the end of the list. *)
Lemma loop_induction (P : nat -> list A -> Database -> Prop) :
  (forall i lst db,
      (forall i' lst' db',
          (length lst' - i' < length lst - i)%nat -> P i' lst' db') ->
      P i lst db) ->
  forall i lst db, P i lst db.
Proof.
  intros step i lst db.
  remember (length lst - i)%nat as n eqn:En.
  revert i lst db En.
  induction n as [n IH] using lt_wf_ind. intros i lst db En.
  apply step. intros i' lst' db' Hlt. eapply IH; [|reflexivity]. lia.
Qed.

(** The loop never raises: a name that is there already costs its item
    the place in the list and nothing else. *)
Lemma save_or_remove_returns : forall i lst db,
  exists lst', snd (save_or_remove eqb save i lst db) = Returned lst'.
Proof.
  apply (loop_induction
           (fun i lst db => exists lst',
                snd (save_or_remove eqb save i lst db) = Returned lst')).
  intros i lst db IH.
  destruct (save_or_remove_cases i lst db)
    as [[Hi E]|[(item & Hi & Hx & E)|(item & lst' & Hi & Hx & Hr & E)]];
    rewrite E.
  - simpl. eauto.
  - apply IH. apply nth_error_in_range in Hi. lia.
  - apply IH. apply nth_error_in_range in Hi.
    apply list_remove_length in Hr. lia.
Qed.

Lemma save_fresh item db :
  has_person (name item) db = false ->
  save item db = (fst (save item db), Returned tt).
Proof.
  intros H. rewrite save_insert. unfold insert_person. now rewrite H.
Qed.

Lemma save_known item db :
  has_person (name item) db = true -> save item db = (db, Raised IntegrityError).
Proof.
  intros H. rewrite save_insert. unfold insert_person. now rewrite H.
Qed.

(** Every item names somebody who is there: the store is not touched. *)
Lemma save_or_remove_known : forall i lst db,
  (forall x, In x lst -> has_person (name x) db = true) ->
  fst (save_or_remove eqb save i lst db) = db.
Proof.
  apply (loop_induction
           (fun i lst db =>
              (forall x, In x lst -> has_person (name x) db = true) ->
              fst (save_or_remove eqb save i lst db) = db)).
  intros i lst db IH Hall.
  destruct (save_or_remove_cases i lst db)
    as [[Hi E]|[(item & Hi & Hx & E)|(item & lst' & Hi & Hx & Hr & E)]];
    rewrite E.
  - reflexivity.
  - apply nth_error_In in Hi. apply Hall in Hi. congruence.
  - apply IH.
    + apply nth_error_in_range in Hi. apply list_remove_length in Hr. lia.
    + intros x Hin. apply Hall. eapply list_remove_incl; eauto.
Qed.

(** From index [i] on every item can be saved: the loop saves them all,
    as the plain loop over the rest of the list does, and the list is
    returned as it was. *)
Lemma save_or_remove_fresh : forall i lst db,
  snd (for_in (skipn i lst) save db) = Returned tt ->
  save_or_remove eqb save i lst db
  = (fst (for_in (skipn i lst) save db), Returned lst).
Proof.
  apply (loop_induction
           (fun i lst db =>
              snd (for_in (skipn i lst) save db) = Returned tt ->
              save_or_remove eqb save i lst db
              = (fst (for_in (skipn i lst) save db), Returned lst))).
  intros i lst db IH Hall.
  destruct (save_or_remove_cases i lst db)
    as [[Hi E]|[(item & Hi & Hx & E)|(item & lst' & Hi & Hx & Hr & E)]];
    rewrite E.
  - rewrite (skipn_past_end lst i Hi). reflexivity.
  - rewrite (skipn_nth_error lst i item Hi) in *. simpl in *.
    unfold bind in *. rewrite (save_fresh item db Hx) in *. simpl.
    apply IH; [|exact Hall]. apply nth_error_in_range in Hi. lia.
  - rewrite (skipn_nth_error lst i item Hi) in Hall. simpl in Hall.
    unfold bind in Hall. rewrite (save_known item db Hx) in Hall.
    discriminate.
Qed.

(** A name that is neither in the store nor on an item at or after the
    iterator is not in the store when the loop is over. *)
Lemma save_or_remove_not_saved n : forall i lst db,
  has_person n db = false ->
  (forall x, In x (skipn i lst) -> name x <> n) ->
  has_person n (fst (save_or_remove eqb save i lst db)) = false.
Proof.
  apply (loop_induction
           (fun i lst db =>
              has_person n db = false ->
              (forall x, In x (skipn i lst) -> name x <> n) ->
              has_person n (fst (save_or_remove eqb save i lst db)) = false)).
  intros i lst db IH Hn Hrest.
  destruct (save_or_remove_cases i lst db)
    as [[Hi E]|[(item & Hi & Hx & E)|(item & lst' & Hi & Hx & Hr & E)]];
    rewrite E.
  - exact Hn.
  - rewrite (skipn_nth_error lst i item Hi) in Hrest. apply IH.
    + apply nth_error_in_range in Hi. lia.
    + rewrite save_insert, (has_person_inserted n _ type (acc item) db Hx).
      rewrite Hn. simpl. apply String.eqb_neq. apply Hrest. now left.
    + intros x Hin. apply Hrest. now right.
  - apply IH.
    + apply nth_error_in_range in Hi. apply list_remove_length in Hr. lia.
    + exact Hn.
    + rewrite (list_remove_skipn eqb eqb_refl lst i item lst' Hi Hr).
      intros x Hin. apply Hrest.
      rewrite (skipn_nth_error lst i item Hi). right.
      replace (S (S i)) with (1 + S i)%nat in Hin by lia.
      rewrite <- skipn_skipn in Hin. apply (In_skipn_incl _ _ _ Hin).
Qed.

(** The first [m] items from index [j] on can be saved: the loop is then
    at index [j + m] of the same list. *)
Lemma save_or_remove_advance m : forall j lst db,
  (j + m <= length lst)%nat ->
  snd (for_in (firstn m (skipn j lst)) save db) = Returned tt ->
  save_or_remove eqb save j lst db
  = save_or_remove eqb save (j + m) lst
      (fst (for_in (firstn m (skipn j lst)) save db)).
Proof.
  induction m as [|m IH]; intros j lst db Hlen Hall.
  - rewrite Nat.add_0_r. reflexivity.
  - destruct (save_or_remove_cases j lst db)
      as [[Hi E]|[(item & Hi & Hx & E)|(item & lst' & Hi & Hx & Hr & E)]].
    + apply nth_error_None in Hi. lia.
    + rewrite E. rewrite (skipn_nth_error lst j item Hi) in *. simpl in *.
      unfold bind in *. rewrite (save_fresh item db Hx) in *. simpl.
      replace (j + S m)%nat with (S j + m)%nat by lia.
      apply IH; [lia | exact Hall].
    + rewrite (skipn_nth_error lst j item Hi) in Hall. simpl in Hall.
      unfold bind in Hall. rewrite (save_known item db Hx) in Hall.
      discriminate.
Qed.

End SavingLoop.

(** ** Loading a file *)

(** The bodies of the two saving loops of [load_people]. *)
Definition save_fellow (entry : string * string) : Py unit :=
  let '(name, accomodation) := entry in Person_save (Fellow name accomodation).

Definition save_staff (member : string) : Py unit := Person_save (Staff member).

Lemma save_fellow_insert entry :
  save_fellow entry = insert_person (fst entry) "F" (snd entry).
Proof. destruct entry; reflexivity. Qed.

Lemma save_staff_insert member :
  save_staff member = insert_person member "S" "N".
Proof. reflexivity. Qed.

Lemma read_people_returns lines : forall fellows staff db,
  existsb malformed lines = false ->
  exists fellows' staff',
    Facility.read_people lines fellows staff db
    = (db, Returned (fellows', staff')).
Proof.
  induction lines as [|line lines IH]; intros fellows staff db H; simpl in *.
  - exists fellows, staff. reflexivity.
  - apply orb_false_iff in H. destruct H as [Hm H]. unfold malformed in Hm.
    destruct (PyStr.contains "FELLOW" line) eqn:Hf.
    + destruct (split_two_chunks "FELLOW" line ltac:(discriminate) Hf)
        as (d0 & d1 & l & Hs).
      rewrite Hs. simpl. apply IH. exact H.
    + destruct (PyStr.contains "STAFF" line) eqn:Hst; [|discriminate].
      pose proof (split_from_nonempty "STAFF" line 0 []) as Hn.
      unfold PyStr.split.
      destruct (PyStr.split_from "STAFF" 0 [] line) as [|d0 l]; [congruence|].
      simpl. apply IH. exact H.
Qed.

(** [load_people] after the file is read: the loop over the fellows, the
    loop over the staff on the store that the first leaves, and the report
    on the rooms of the store that the second leaves. *)
Lemma load_people_run lines db fellows staff :
  Facility.read_people lines [] [] db = (db, Returned (fellows, staff)) ->
  exists db1 fellows' db2 staff' rooms,
    save_or_remove tuple_eqb save_fellow 0 fellows db
    = (db1, Returned fellows') /\
    save_or_remove String.eqb save_staff 0 staff db1
    = (db2, Returned staff') /\
    Facility.available_rooms db2 = (db2, Returned rooms) /\
    Facility.load_people lines db
    = (db2, Returned {| printed_fellows := fellows';
                        printed_staff := staff';
                        printed_rooms := rooms |}).
Proof.
  intros Hread.
  destruct (save_or_remove_returns tuple_eqb tuple_eqb_refl fst "F" snd
              save_fellow save_fellow_insert 0 fellows db) as [fellows' H1].
  destruct (save_or_remove tuple_eqb save_fellow 0 fellows db)
    as [db1 o1] eqn:E1. simpl in H1. subst o1.
  destruct (save_or_remove_returns String.eqb String.eqb_refl (fun n => n)
              "S" (fun _ => "N") save_staff save_staff_insert 0 staff db1)
    as [staff' H2].
  destruct (save_or_remove String.eqb save_staff 0 staff db1)
    as [db2 o2] eqn:E2. simpl in H2. subst o2.
  exists db1, fellows', db2, staff'. eexists.
  split; [reflexivity|]. split; [exact E2|]. split; [reflexivity|].
  unfold Facility.load_people, bind. rewrite Hread.
  change (fun '(name, accomodation) => Person_save (Fellow name accomodation))
    with save_fellow.
  change (fun member => Person_save (Staff member)) with save_staff.
  rewrite E1, E2. reflexivity.
Qed.

(** X9. [load_people] returns without an error exactly when every line
    of the file holds [FELLOW] or [STAFF]: names that are in the store
    already, or that come twice in the file, never make the load fail. *)
Theorem load_people_returns_iff_wellformed lines db :
  (exists out, snd (Facility.load_people lines db) = Returned out)
  <-> existsb malformed lines = false.
Proof.
  split.
  - intros [out H]. destruct (existsb malformed lines) eqn:E; [|reflexivity].
    unfold Facility.load_people, bind in H.
    rewrite (read_people_malformed lines [] [] db E) in H. discriminate.
  - intros H.
    destruct (read_people_returns lines [] [] db H) as (fs & st & Hread).
    destruct (load_people_run lines db fs st Hread)
      as (db1 & fs' & db2 & st' & rooms & _ & _ & _ & E).
    rewrite E. simpl. eauto.
Qed.

Lemma NoDup_app_apart {A} (l1 l2 : list A) x :
  NoDup (l1 ++ l2) -> In x l1 -> In x l2 -> False.
Proof.
  induction l1 as [|y l1 IH]; simpl; intros Hnd H1 H2; [destruct H1|].
  inversion Hnd; subst. destruct H1 as [->|H1].
  - apply H3. apply in_or_app. now right.
  - now apply IH.
Qed.

Lemma person_names_of_fields l :
  map person_name l = map (fun t => fst (fst t)) (map person_fields l).
Proof. rewrite map_map. reflexivity. Qed.

(** X10. A file that names only people who are in the store already
    leaves the store as it was: loading the same people again adds
    nothing. *)
Theorem load_people_known_changes_nothing lines db fellows staff :
  Facility.read_people lines [] [] db = (db, Returned (fellows, staff)) ->
  Forall (fun entry => has_person (fst entry) db = true) fellows ->
  Forall (fun member => has_person member db = true) staff ->
  fst (Facility.load_people lines db) = db.
Proof.
  intros Hread Hf Hs.
  destruct (load_people_run lines db fellows staff Hread)
    as (db1 & fs' & db2 & st' & rooms & E1 & E2 & _ & E).
  rewrite E. simpl.
  pose proof (save_or_remove_known tuple_eqb tuple_eqb_refl fst "F" snd
                save_fellow save_fellow_insert 0 fellows db) as H1.
  rewrite E1 in H1. simpl in H1.
  rewrite H1 in * by (apply Forall_forall; exact Hf).
  pose proof (save_or_remove_known String.eqb String.eqb_refl (fun n => n)
                "S" (fun _ => "N") save_staff save_staff_insert 0 staff db)
    as H2.
  rewrite E2 in H2. simpl in H2. apply H2. apply Forall_forall. exact Hs.
Qed.

Lemma load_people_known_changes_nothing_witness :
  let lines := ["SHERLOCK HOLMES STAFF" ++ nl; "ANN FELLOW Y" ++ nl;
                "BOB FELLOW N" ++ nl] in
  let db := run (LoadPeople lines) amity in
  Facility.read_people lines [] [] db
  = (db, Returned ([("ANN", "Y"); ("BOB", "N")], ["SHERLOCK HOLMES"])) /\
  fst (Facility.load_people lines db) = db.
Proof.
  intros lines db. split; [reflexivity|].
  apply (load_people_known_changes_nothing lines db
           [("ANN", "Y"); ("BOB", "N")] ["SHERLOCK HOLMES"]).
  - reflexivity.
  - repeat constructor.
  - repeat constructor.
Defined.

(** X11. A file whose names are pairwise distinct and new to the store
    is saved whole: first the fellows in the order of the file, each with
    what stands after [FELLOW] on its line as the flag, then the staff in
    the order of the file with the flag ['N']; the lists printed are the
    lists read. *)
Theorem load_people_saves_new_people lines db fellows staff :
  Facility.read_people lines [] [] db = (db, Returned (fellows, staff)) ->
  NoDup (map fst fellows ++ staff) ->
  Forall (fun n => has_person n db = false) (map fst fellows ++ staff) ->
  exists out,
    snd (Facility.load_people lines db) = Returned out /\
    printed_fellows out = fellows /\
    printed_staff out = staff /\
    map person_fields (people_table (fst (Facility.load_people lines db)))
    = (map person_fields (people_table db)
       ++ map (fun entry => (fst entry, "F", snd entry)) fellows
       ++ map (fun member => (member, "S", "N")) staff)%list.
Proof.
  intros Hread Hnd Hnew.
  destruct (load_people_run lines db fellows staff Hread)
    as (db1 & fs' & db2 & st' & rooms & E1 & E2 & _ & E).
  rewrite E. simpl. eexists. split; [reflexivity|]. simpl.
  apply Forall_app in Hnew. destruct Hnew as [Hnf Hns].
  (* the fellows *)
  assert (Hf : snd (for_in fellows save_fellow db) = Returned tt).
  { apply (for_in_save_returns fst "F" snd save_fellow save_fellow_insert).
    split; [now apply NoDup_app_remove_r in Hnd|].
    rewrite Forall_map in Hnf. exact Hnf. }
  pose proof (save_or_remove_fresh tuple_eqb tuple_eqb_refl fst "F" snd
                save_fellow save_fellow_insert 0 fellows db Hf) as H1.
  rewrite E1 in H1. simpl in H1. inversion H1 as [[Hdb1 Hfs]]. clear H1.
  destruct (for_in_save_prefix fst "F" snd save_fellow save_fellow_insert
              fellows db) as (k & Hp1 & _ & _ & [[_ Hk]|[Ho _]]);
    [|congruence].
  rewrite <- Hdb1, Hk, firstn_all in Hp1.
  (* the staff *)
  assert (Hs : snd (for_in staff save_staff db1) = Returned tt).
  { apply (for_in_save_returns (fun n => n) "S" (fun _ => "N") save_staff
             save_staff_insert).
    rewrite map_id. split; [now apply NoDup_app_remove_l in Hnd|].
    apply Forall_forall. intros m Hm.
    destruct (has_person m db1) eqn:Hx; [|reflexivity]. exfalso.
    apply has_person_In in Hx.
    rewrite person_names_of_fields, Hp1, map_app in Hx.
    apply in_app_or in Hx. destruct Hx as [Hx|Hx].
    - rewrite <- person_names_of_fields in Hx. apply has_person_In in Hx.
      rewrite Forall_forall in Hns. rewrite (Hns m Hm) in Hx. discriminate.
    - rewrite map_map in Hx. simpl in Hx.
      apply (NoDup_app_apart _ _ m Hnd); assumption. }
  pose proof (save_or_remove_fresh String.eqb String.eqb_refl (fun n => n)
                "S" (fun _ => "N") save_staff save_staff_insert 0 staff db1 Hs)
    as H2.
  rewrite E2 in H2. simpl in H2. inversion H2 as [[Hdb2 Hst]]. clear H2.
  destruct (for_in_save_prefix (fun n => n) "S" (fun _ => "N") save_staff
              save_staff_insert staff db1)
    as (k2 & Hp2 & _ & _ & [[_ Hk2]|[Ho _]]); [|congruence].
  rewrite <- Hdb2, Hk2, firstn_all, Hp1, <- app_assoc in Hp2.
  repeat split; auto. rewrite <- Hdb2. exact Hp2.
Qed.

Lemma load_people_saves_new_people_witness :
  let lines := ["OLUWAFEMI SULE FELLOW Y" ++ nl; "DOMINIC WALTERS STAFF" ++ nl;
                "SIMON PATTERSON FELLOW N" ++ nl] in
  let fellows := [("OLUWAFEMI SULE", "Y"); ("SIMON PATTERSON", "N")] in
  let staff := ["DOMINIC WALTERS"] in
  Facility.read_people lines [] [] amity = (amity, Returned (fellows, staff)) /\
  exists out,
    snd (Facility.load_people lines amity) = Returned out /\
    printed_fellows out = fellows /\
    printed_staff out = staff /\
    map person_fields (people_table (fst (Facility.load_people lines amity)))
    = (map person_fields (people_table amity)
       ++ map (fun entry => (fst entry, "F", snd entry)) fellows
       ++ map (fun member => (member, "S", "N")) staff)%list.
Proof.
  intros lines fellows staff. split; [reflexivity|].
  apply (load_people_saves_new_people lines amity fellows staff).
  - reflexivity.
  - repeat constructor; simpl; intuition discriminate.
  - repeat constructor.
Defined.

Lemma for_in_save_staff_names staff db :
  snd (for_in staff save_staff db) = Returned tt ->
  forall n,
    has_person n (fst (for_in staff save_staff db)) = true
    <-> has_person n db = true \/ In n staff.
Proof.
  intros Hret n.
  destruct (for_in_save_prefix (fun n => n) "S" (fun _ => "N") save_staff
              save_staff_insert staff db)
    as (k & Hp & _ & _ & [[_ Hk]|[Ho _]]); [|congruence].
  rewrite Hk, firstn_all in Hp.
  rewrite !has_person_In, !person_names_of_fields, Hp, map_app, in_app_iff.
  rewrite (map_map _ (fun t : string * string * string => fst (fst t)) staff).
  simpl. rewrite map_id. reflexivity.
Qed.

(** X12. The entry after a duplicate is passed over.  When the staff read
    from the file are [pre], then [a], then [b], then [rest], the staff of
    [pre] are new and pairwise distinct, and [a] is in the store already or
    is one of [pre], then the handler takes [a] out of the list, [b] moves
    into the place the iterator has just left, and [b] is never saved:
    if [b] was not in the store and is named nowhere else in the file, it
    is not in the store after the load. *)
Theorem load_people_passes_over_entry_after_duplicate
    lines db fellows pre a b rest :
  Facility.read_people lines [] [] db
  = (db, Returned (fellows, (pre ++ a :: b :: rest)%list)) ->
  NoDup pre ->
  Forall (fun n => has_person n db = false /\ ~ In n (map fst fellows)) pre ->
  has_person a db = true \/ In a pre ->
  has_person b db = false ->
  ~ In b (map fst fellows) -> ~ In b pre -> ~ In b rest ->
  has_person b (fst (Facility.load_people lines db)) = false.
Proof.
  intros Hread Hnd Hpre Ha Hb Hbf Hbp Hbr.
  destruct (load_people_run lines db fellows _ Hread)
    as (db1 & fs' & db2 & st' & rooms & E1 & E2 & _ & E).
  rewrite E. simpl.
  assert (Hdb1 : db1 = fst (save_or_remove tuple_eqb save_fellow 0 fellows db))
    by now rewrite E1.
  (* what the loop over the fellows leaves *)
  assert (Hnew : forall n, has_person n db = false ->
                           ~ In n (map fst fellows) ->
                           has_person n db1 = false).
  { intros n Hn Hnf. rewrite Hdb1.
    apply (save_or_remove_not_saved tuple_eqb tuple_eqb_refl fst "F" snd
             save_fellow save_fellow_insert n 0 fellows db Hn).
    intros x Hx E'. apply Hnf. rewrite <- E'. now apply in_map. }
  assert (Hold : has_person a db = true -> has_person a db1 = true).
  { intros H. rewrite Hdb1.
    apply (preserves_save_or_remove (fun d => has_person a d = true)
             tuple_eqb save_fellow); [|exact H].
    intros x d Hd. rewrite save_fellow_insert. now apply has_person_insert. }
  (* the staff of [pre] are saved *)
  set (lst := (pre ++ a :: b :: rest)%list) in *.
  assert (Hfirst : firstn (length pre) (skipn 0 lst) = pre).
  { simpl. unfold lst. rewrite firstn_app, firstn_all, Nat.sub_diag. simpl.
    now rewrite app_nil_r. }
  assert (Hsaved : snd (for_in pre save_staff db1) = Returned tt).
  { apply (for_in_save_returns (fun n => n) "S" (fun _ => "N") save_staff
             save_staff_insert).
    rewrite map_id. split; [exact Hnd|].
    eapply Forall_impl; [|exact Hpre]. intros n [Hn Hnf]. now apply Hnew. }
  pose proof (save_or_remove_advance String.eqb String.eqb_refl (fun n => n)
                "S" (fun _ => "N") save_staff save_staff_insert
                (length pre) 0 lst db1) as Hadv.
  rewrite Hfirst in Hadv. simpl in Hadv.
  rewrite Hadv in E2;
    [|unfold lst; rewrite length_app; simpl; lia | exact Hsaved].
  set (db1' := fst (for_in pre save_staff db1)) in *.
  pose proof (for_in_save_staff_names pre db1 Hsaved) as Hnames.
  fold db1' in Hnames.
  (* the turn of [a] *)
  assert (Hi : nth_error lst (length pre) = Some a).
  { unfold lst. rewrite nth_error_app2, Nat.sub_diag by lia. reflexivity. }
  assert (Hknown : has_person a db1' = true).
  { apply Hnames. destruct Ha as [Ha|Ha]; [left; now apply Hold | now right]. }
  destruct (save_or_remove_cases String.eqb String.eqb_refl (fun n => n)
              "S" (fun _ => "N") save_staff save_staff_insert
              (length pre) lst db1')
    as [[Hi' _]|[(item & Hi' & Hx & _)|(item & lst' & Hi' & Hx & Hr & Eturn)]];
    try congruence.
  assert (item = a) by congruence. subst item.
  rewrite Eturn in E2.
  (* [b] is out of the iterator's reach *)
  assert (Hdb2 : db2 = fst (save_or_remove String.eqb save_staff
                              (S (length pre)) lst' db1'))
    by now rewrite E2.
  rewrite Hdb2.
  apply (save_or_remove_not_saved String.eqb String.eqb_refl (fun n => n)
           "S" (fun _ => "N") save_staff save_staff_insert).
  - destruct (has_person b db1') eqn:Hb'; [|reflexivity].
    apply Hnames in Hb'. destruct Hb' as [Hb'|Hb']; [|contradiction].
    rewrite (Hnew b Hb Hbf) in Hb'. discriminate.
  - rewrite (list_remove_skipn String.eqb String.eqb_refl lst (length pre) a
               lst' Hi Hr).
    unfold lst.
    replace (S (S (length pre))) with (length pre + 2)%nat by lia.
    rewrite skipn_app, skipn_all2, Nat.add_comm, Nat.add_sub by lia.
    simpl. intros x Hin ->. contradiction.
Qed.

Lemma load_people_passes_over_entry_after_duplicate_witness :
  let lines := ["ANN FELLOW Y" ++ nl; "DOMINIC WALTERS STAFF" ++ nl;
                "SHERLOCK HOLMES STAFF" ++ nl; "SIMON PATTERSON STAFF" ++ nl;
                "JOHN WATSON STAFF" ++ nl] in
  Facility.read_people lines [] [] amity
  = (amity,
     Returned ([("ANN", "Y")],
               ["DOMINIC WALTERS"; "SHERLOCK HOLMES"; "SIMON PATTERSON";
                "JOHN WATSON"])) /\
  has_person "SHERLOCK HOLMES" amity = true /\
  has_person "SIMON PATTERSON" amity = false /\
  has_person "SIMON PATTERSON" (fst (Facility.load_people lines amity)) = false /\
  has_person "JOHN WATSON" (fst (Facility.load_people lines amity)) = true.
Proof.
  intros lines. split; [reflexivity|]. split; [reflexivity|].
  split; [reflexivity|]. split; [|reflexivity].
  apply (load_people_passes_over_entry_after_duplicate lines amity
           [("ANN", "Y")] ["DOMINIC WALTERS"] "SHERLOCK HOLMES"
           "SIMON PATTERSON" ["JOHN WATSON"]).
  - reflexivity.
  - repeat constructor. simpl. tauto.
  - repeat constructor; simpl; intuition discriminate.
  - left. reflexivity.
  - reflexivity.
  - simpl. intuition discriminate.
  - simpl. intuition discriminate.
  - simpl. intuition discriminate.
Defined.

(** ** White space around the names of a file *)

(** A list of characters that does not begin with white space. *)
Definition clean (l : list ascii) : Prop :=
  match l with
  | [] => True
  | c :: _ => PyStr.isspace c = false
  end.

Lemma lstrip_chars_clean l : clean (PyStr.lstrip_chars l).
Proof.
  induction l as [|c l IH]; simpl; [exact I|].
  destruct (PyStr.isspace c) eqn:E; [exact IH | exact E].
Qed.

Lemma lstrip_chars_of_clean l : clean l -> PyStr.lstrip_chars l = l.
Proof. destruct l as [|c l]; simpl; intros H; [|rewrite H]; reflexivity. Qed.

Lemma lstrip_chars_split l :
  exists sp, l = (sp ++ PyStr.lstrip_chars l)%list /\
             Forall (fun c => PyStr.isspace c = true) sp.
Proof.
  induction l as [|c l (sp & E & F)]; simpl.
  - exists []. split; [reflexivity | constructor].
  - destruct (PyStr.isspace c) eqn:Ec.
    + exists (c :: sp). split; [simpl; congruence | now constructor].
    + exists []. split; [reflexivity | constructor].
Qed.

Lemma lstrip_chars_spaces sp l :
  Forall (fun c => PyStr.isspace c = true) sp ->
  PyStr.lstrip_chars (sp ++ l) = PyStr.lstrip_chars l.
Proof. induction 1 as [|c sp Hc _ IH]; simpl; [|rewrite Hc]; auto. Qed.

Lemma clean_app_l a b : clean (a ++ b) -> clean a.
Proof. destruct a; simpl; auto. Qed.

(** [strip] on the characters of a string. *)
Definition strip_chars (l : list ascii) : list ascii :=
  rev (PyStr.lstrip_chars (rev (PyStr.lstrip_chars l))).

Lemma strip_chars_clean l :
  clean (strip_chars l) /\ clean (rev (strip_chars l)).
Proof.
  unfold strip_chars. rewrite rev_involutive. split; [|apply lstrip_chars_clean].
  destruct (lstrip_chars_split (rev (PyStr.lstrip_chars l))) as (sp & E & _).
  apply (f_equal (@rev ascii)) in E. rewrite rev_involutive, rev_app_distr in E.
  apply (clean_app_l _ (rev sp)). rewrite <- E. apply lstrip_chars_clean.
Qed.

Lemma strip_chars_idempotent l : strip_chars (strip_chars l) = strip_chars l.
Proof.
  destruct (strip_chars_clean l) as [H1 H2].
  unfold strip_chars at 1.
  rewrite (lstrip_chars_of_clean _ H1), (lstrip_chars_of_clean _ H2).
  apply rev_involutive.
Qed.

Lemma strip_idempotent s : PyStr.strip (PyStr.strip s) = PyStr.strip s.
Proof.
  unfold PyStr.strip. rewrite list_ascii_of_string_of_list_ascii.
  fold (strip_chars (list_ascii_of_string s)).
  fold (strip_chars (strip_chars (list_ascii_of_string s))).
  now rewrite strip_chars_idempotent.
Qed.

(** A string that [strip()] leaves as it is: no white space at either
    end. *)
Definition stripped (s : string) : Prop := PyStr.strip s = s.

Lemma read_people_stripped lines : forall fellows staff db fellows' staff',
  Forall (fun entry => stripped (fst entry) /\ stripped (snd entry)) fellows ->
  Forall stripped staff ->
  snd (Facility.read_people lines fellows staff db)
  = Returned (fellows', staff') ->
  Forall (fun entry => stripped (fst entry) /\ stripped (snd entry)) fellows' /\
  Forall stripped staff'.
Proof.
  induction lines as [|line lines IH]; intros fellows staff db fs st Hf Hs H;
    simpl in H.
  - inversion H; subst. auto.
  - destruct (PyStr.contains "FELLOW" line).
    + destruct (PyStr.split line "FELLOW") as [|c0 [|c1 l]];
        simpl in H; try discriminate.
      apply (IH _ _ _ _ _) in H; auto.
      apply Forall_app. split; [exact Hf|]. repeat constructor; simpl;
        apply strip_idempotent.
    + destruct (PyStr.contains "STAFF" line); [|discriminate].
      destruct (PyStr.split line "STAFF") as [|c0 l];
        simpl in H; try discriminate.
      apply (IH _ _ _ _ _) in H; auto.
      apply Forall_app. split; [exact Hs|]. repeat constructor.
      apply strip_idempotent.
Qed.

Section SavedRows.

Context {A : Type}.
Variable eqb : A -> A -> bool.
Hypothesis eqb_refl : forall x, eqb x x = true.
Variable name : A -> string.
Variable type : string.
Variable acc : A -> string.
Variable save : A -> Py unit.
Hypothesis save_insert : forall x, save x = insert_person (name x) type (acc x).

(** Every row that a saving loop adds is the row of an item of its list. *)
Lemma save_or_remove_rows : forall i lst db,
  exists added,
    people_table (fst (save_or_remove eqb save i lst db))
    = (people_table db ++ added)%list /\
    Forall (fun p => exists x,
                In x lst /\ person_fields p = (name x, type, acc x)) added.
Proof.
  apply (loop_induction
           (fun i lst db => exists added,
                people_table (fst (save_or_remove eqb save i lst db))
                = (people_table db ++ added)%list /\
                Forall (fun p => exists x,
                            In x lst /\
                            person_fields p = (name x, type, acc x)) added)).
  intros i lst db IH.
  destruct (save_or_remove_cases eqb eqb_refl name type acc save save_insert
              i lst db)
    as [[Hi E]|[(item & Hi & Hx & E)|(item & lst' & Hi & Hx & Hr & E)]];
    rewrite E.
  - exists []. simpl. rewrite app_nil_r. split; [reflexivity | constructor].
  - destruct (IH (S i) lst (fst (save item db))) as (added & Hp & F).
    { apply nth_error_in_range in Hi. lia. }
    rewrite Hp, save_insert. unfold insert_person. rewrite Hx. simpl.
    rewrite <- app_assoc. eexists. split; [reflexivity|].
    constructor; [|exact F]. exists item. split; [|reflexivity].
    eapply nth_error_In; eauto.
  - destruct (IH (S i) lst' db) as (added & Hp & F).
    { apply nth_error_in_range in Hi. apply list_remove_length in Hr. lia. }
    exists added. split; [exact Hp|]. eapply Forall_impl; [|exact F].
    intros p (x & Hin & Ep). exists x. split; [|exact Ep].
    eapply list_remove_incl; eauto.
Qed.

End SavedRows.

(** X13. Every person that [load_people] saves bears a name and a flag
    without white space at either end: the text around [FELLOW] and before
    [STAFF] is stored as [strip()] leaves it, the line end included. *)
Theorem load_people_saves_stripped_names lines db :
  exists added,
    people_table (fst (Facility.load_people lines db))
    = (people_table db ++ added)%list /\
    Forall (fun p => stripped (person_name p) /\
                     stripped (person_accomodation p)) added.
Proof.
  destruct (Facility.read_people lines [] [] db) as [d [[fs st]|e]] eqn:Hread.
  - pose proof (read_people_pure lines [] [] db) as Hd.
    rewrite Hread in Hd. simpl in Hd. subst d.
    destruct (read_people_stripped lines [] [] db fs st) as [Hf Hs];
      [constructor | constructor | now rewrite Hread |].
    destruct (load_people_run lines db fs st Hread)
      as (db1 & fs' & db2 & st' & rooms & E1 & E2 & _ & E).
    rewrite E. simpl.
    destruct (save_or_remove_rows tuple_eqb tuple_eqb_refl fst "F" snd
                save_fellow save_fellow_insert 0 fs db) as (a1 & Hp1 & F1).
    destruct (save_or_remove_rows String.eqb String.eqb_refl (fun n => n)
                "S" (fun _ => "N") save_staff save_staff_insert 0 st db1)
      as (a2 & Hp2 & F2).
    rewrite E1 in Hp1. rewrite E2 in Hp2. simpl in Hp1, Hp2.
    exists (a1 ++ a2)%list. rewrite Hp2, Hp1, app_assoc. split; [reflexivity|].
    rewrite Forall_forall in Hf, Hs.
    apply Forall_app. split; (eapply Forall_impl; [|eassumption]).
    + intros p (x & Hin & Ep). unfold person_fields in Ep.
      injection Ep as En Et Ea. rewrite En, Ea. now apply Hf.
    + intros p (x & Hin & Ep). unfold person_fields in Ep.
      injection Ep as En Et Ea. rewrite En, Ea.
      split; [now apply Hs | reflexivity].
  - exists []. rewrite app_nil_r. split; [|constructor].
    pose proof (read_people_pure lines [] [] db) as Hd.
    rewrite Hread in Hd. simpl in Hd. subst d.
    unfold Facility.load_people, bind. now rewrite Hread.
Qed.

(** ** Rooms that nobody is given *)

(** X14. Whatever the calls made on a new database, [available_rooms]
    reports every room with its whole capacity as available space, 6 for
    an office and 4 for a living space: no call ever gives a room to
    anybody. *)
Theorem available_rooms_all_free calls :
  let db := run_all calls intialize_db in
  exists infos,
    Facility.available_rooms db = (db, Returned infos) /\
    map info_name infos = map room_name (rooms_table db) /\
    Forall (fun info =>
              info_available_space info = info_capacity info /\
              (info_type info = "O" /\ info_capacity info = 6 \/
               info_type info = "L" /\ info_capacity info = 4)) infos.
Proof.
  intros db. unfold Facility.available_rooms. eexists.
  split; [reflexivity|].
  destruct (run_all_extends calls intialize_db)
    as [(added & Hr & Fw & _) [_ Ha]].
  fold db in Hr, Ha. simpl in Hr, Ha.
  split; [rewrite map_map; reflexivity|].
  apply Forall_map. rewrite Hr. eapply Forall_impl; [|exact Fw].
  intros r Hw. simpl. unfold count_people_rooms. rewrite Ha. simpl.
  split; [lia | exact Hw].
Qed.

(** ** Where a line is cut *)

Lemma append_assoc (a b c : string) : (a ++ b) ++ c = a ++ (b ++ c).
Proof. induction a as [|x a IH]; simpl; [|rewrite IH]; reflexivity. Qed.

Lemma length_append (a b : string) :
  String.length (a ++ b) = (String.length a + String.length b)%nat.
Proof. induction a as [|x a IH]; simpl; [|rewrite IH]; reflexivity. Qed.

Lemma prefix_append s b : prefix s (s ++ b) = true.
Proof.
  induction s as [|a s IH]; simpl; [destruct b; reflexivity|].
  destruct (ascii_dec a a); [exact IH | congruence].
Qed.

Lemma prefix_within s : forall x y,
  prefix s (x ++ y) = true -> (String.length s <= String.length x)%nat ->
  prefix s x = true.
Proof.
  induction s as [|a s IH]; intros [|b x] y H Hlen; simpl in *;
    try reflexivity; try lia.
  destruct (ascii_dec a b); [|discriminate]. apply (IH x y H). lia.
Qed.

Lemma contains_prefix sep s : prefix sep s = true -> PyStr.contains sep s = true.
Proof. intros H. destruct s; cbn [PyStr.contains]; now rewrite H. Qed.

Lemma contains_append sep pre post :
  PyStr.contains sep (pre ++ sep ++ post) = true.
Proof.
  induction pre as [|a pre IH]; cbn [append PyStr.contains].
  - apply contains_prefix, prefix_append.
  - rewrite IH. apply orb_true_r.
Qed.

Lemma split_from_skip sep t : forall b cur,
  PyStr.split_from sep (String.length t) cur (t ++ b)
  = PyStr.split_from sep 0 cur b.
Proof. induction t as [|a t IH]; intros b cur; simpl; auto. Qed.

(** The first cut is at the first place where the separator stands: when
    it does not stand anywhere in [pre] followed by all but the last
    character of the separator, the first chunk of
    [pre ++ sep ++ post] is [pre], and the rest is cut out of [post]. *)
Lemma split_first sep sep0 c :
  sep = sep0 ++ String c "" ->
  forall pre post cur,
    PyStr.contains sep (pre ++ sep0) = false ->
    PyStr.split_from sep 0 cur (pre ++ sep ++ post)
    = string_of_list_ascii (rev cur ++ list_ascii_of_string pre)
        :: PyStr.split_from sep 0 [] post.
Proof.
  intros Hsep. induction pre as [|a pre IH]; intros post cur H.
  - cbn [append list_ascii_of_string]. rewrite app_nil_r.
    pose proof (prefix_append sep post) as Hp.
    destruct sep as [|c0 sep'] eqn:Es;
      [destruct sep0; discriminate|].
    cbn [append] in *. cbn [PyStr.split_from]. rewrite Hp. f_equal.
    cbn [String.length]. rewrite Nat.sub_1_r. cbn [Nat.pred].
    apply split_from_skip.
  - cbn [append PyStr.contains] in H. apply orb_false_iff in H.
    destruct H as [Hp H].
    cbn [append PyStr.split_from].
    destruct (prefix sep (String a (pre ++ sep ++ post))) eqn:Hp'.
    + exfalso.
      assert (E : String a (pre ++ sep ++ post)
                  = String a (pre ++ sep0) ++ (String c "" ++ post)).
      { cbn [append]. rewrite Hsep, !append_assoc. reflexivity. }
      rewrite E in Hp'. apply prefix_within in Hp'; [congruence|].
      rewrite Hsep. cbn [String.length]. rewrite !length_append. simpl. lia.
    + rewrite (IH post (a :: cur) H). cbn [rev list_ascii_of_string].
      now rewrite <- app_assoc.
Qed.

(** A string in which the separator does not stand is one chunk. *)
Lemma split_from_whole sep s : forall cur,
  PyStr.contains sep s = false ->
  PyStr.split_from sep 0 cur s
  = [string_of_list_ascii (rev cur ++ list_ascii_of_string s)].
Proof.
  induction s as [|a s IH]; intros cur H.
  - simpl. now rewrite app_nil_r.
  - cbn [PyStr.contains] in H. apply orb_false_iff in H. destruct H as [Hp H].
    cbn [PyStr.split_from]. rewrite Hp, (IH (a :: cur) H).
    cbn [rev list_ascii_of_string]. now rewrite <- app_assoc.
Qed.

(** X15. A line [pre ++ "FELLOW" ++ post] in which [FELLOW] stands
    nowhere else is read as one fellow: the name is [pre] and the flag is
    [post], each as [strip()] leaves it; nothing is added to the staff. *)
Theorem read_people_fellow_line pre post lines fellows staff db :
  PyStr.contains "FELLOW" (pre ++ "FELLO") = false ->
  PyStr.contains "FELLOW" post = false ->
  Facility.read_people ((pre ++ "FELLOW" ++ post) :: lines) fellows staff db
  = Facility.read_people lines
      (fellows ++ [(PyStr.strip pre, PyStr.strip post)]) staff db.
Proof.
  intros Hpre Hpost. cbn [Facility.read_people].
  rewrite contains_append. unfold PyStr.split.
  rewrite (split_first "FELLOW" "FELLO" "W" eq_refl pre post [] Hpre).
  rewrite (split_from_whole "FELLOW" post [] Hpost).
  cbn [rev app map]. rewrite !string_of_list_ascii_of_string. reflexivity.
Qed.

Lemma read_people_fellow_line_witness :
  let pre := "OLUWAFEMI SULE " in
  let post := " Y" ++ nl in
  PyStr.contains "FELLOW" (pre ++ "FELLO") = false /\
  PyStr.contains "FELLOW" post = false /\
  Facility.read_people [pre ++ "FELLOW" ++ post] [] [] amity
  = (amity, Returned ([("OLUWAFEMI SULE", "Y")], [])).
Proof.
  intros pre post. split; [reflexivity|]. split; [reflexivity|].
  rewrite (read_people_fellow_line pre post [] [] [] amity);
    reflexivity.
Defined.

(** X16. A line [pre ++ "STAFF" ++ post] in which [FELLOW] does not stand,
    and [STAFF] not before that place, is read as one staff member of the
    name [pre] as [strip()] leaves it; whatever follows [STAFF] on the line
    is dropped. *)
Theorem read_people_staff_line pre post lines fellows staff db :
  PyStr.contains "FELLOW" (pre ++ "STAFF" ++ post) = false ->
  PyStr.contains "STAFF" (pre ++ "STAF") = false ->
  Facility.read_people ((pre ++ "STAFF" ++ post) :: lines) fellows staff db
  = Facility.read_people lines fellows (staff ++ [PyStr.strip pre]) db.
Proof.
  intros Hf Hpre. cbn [Facility.read_people].
  rewrite Hf, contains_append. unfold PyStr.split.
  rewrite (split_first "STAFF" "STAF" "F" eq_refl pre post [] Hpre).
  cbn [rev app map]. rewrite string_of_list_ascii_of_string. reflexivity.
Qed.

Lemma read_people_staff_line_witness :
  let pre := "  DOMINIC WALTERS " in
  let post := " Y" ++ nl in
  PyStr.contains "FELLOW" (pre ++ "STAFF" ++ post) = false /\
  PyStr.contains "STAFF" (pre ++ "STAF") = false /\
  Facility.read_people [pre ++ "STAFF" ++ post] [] [] amity
  = (amity, Returned ([], ["DOMINIC WALTERS"])).
Proof.
  intros pre post. split; [reflexivity|]. split; [reflexivity|].
  rewrite (read_people_staff_line pre post [] [] [] amity);
    reflexivity.
Defined.

(** ** Staff and accommodation *)

(** C7. A staff member is recorded without accommodation, whatever is
    supplied.  [add_staff] saves the names of its list in order, all of
    them when they are new and distinct and up to the first name that is
    not otherwise, each with type ['S'] and flag ['N'].  A line of a file
    that holds [STAFF] and no [FELLOW] makes [load_people] save the name
    before [STAFF], when it is new, with type ['S'] and flag ['N'],
    whatever follows [STAFF] on the line.  And no call adds a row of type
    ['S'] with any other flag. *)
Theorem staff_recorded_without_accomodation staff pre post c db :
  (let r := Facility.add_staff staff db in
   exists k,
     map person_fields (people_table (fst r))
     = (map person_fields (people_table db)
        ++ map (fun n => (n, "S", "N")) (firstn k staff))%list /\
     (snd r = Returned tt /\ k = length staff \/
      snd r = Raised IntegrityError /\
      exists n, nth_error staff k = Some n /\
                (has_person n db = true \/ In n (firstn k staff)))) /\
  (PyStr.contains "FELLOW" (pre ++ "STAFF" ++ post) = false ->
   PyStr.contains "STAFF" (pre ++ "STAF") = false ->
   has_person (PyStr.strip pre) db = false ->
   map person_fields
       (people_table
          (fst (Facility.load_people [pre ++ "STAFF" ++ post] db)))
   = (map person_fields (people_table db)
      ++ [(PyStr.strip pre, "S", "N")])%list) /\
  (exists added,
      people_table (run c db) = (people_table db ++ added)%list /\
      Forall (fun p => person_type p = "S" -> person_accomodation p = "N")
             added).
Proof.
  split; [|split].
  - cbn zeta.
    destruct (for_in_save_prefix (fun n => n) "S" (fun _ => "N")
                (fun n => Person_save (Staff n)) (fun n => eq_refl) staff db)
      as (k & Hp & _ & _ & Hout).
    rewrite map_id in Hout. exists k. split; assumption.
  - intros Hf Hpre Hnew.
    assert (Hread : Facility.read_people [pre ++ "STAFF" ++ post] [] [] db
                    = (db, Returned ([], [PyStr.strip pre]))).
    { cbn [Facility.read_people]. rewrite Hf, contains_append.
      unfold PyStr.split.
      rewrite (split_first "STAFF" "STAF" "F" eq_refl pre post [] Hpre).
      cbn [rev app map]. rewrite string_of_list_ascii_of_string.
      reflexivity. }
    destruct (load_people_run _ db _ _ Hread)
      as (db1 & fs' & db2 & st' & rooms & E1 & E2 & _ & E).
    rewrite E. cbn [fst].
    rewrite (save_or_remove_stop tuple_eqb save_fellow 0 [] db eq_refl) in E1.
    injection E1 as <- _.
    assert (Hsave : snd (for_in (skipn 0 [PyStr.strip pre]) save_staff db)
                    = Returned tt).
    { apply (for_in_save_returns (fun n => n) "S" (fun _ => "N") save_staff
               save_staff_insert).
      split; repeat constructor; [intros []|exact Hnew]. }
    rewrite (save_or_remove_fresh String.eqb String.eqb_refl (fun n => n)
               "S" (fun _ => "N") save_staff save_staff_insert
               0 [PyStr.strip pre] db Hsave) in E2.
    injection E2 as <- _.
    destruct (for_in_save_prefix (fun n => n) "S" (fun _ => "N") save_staff
                save_staff_insert [PyStr.strip pre] db)
      as (k & Hp & _ & _ & [[_ Hk]|[Ho _]]);
      [|cbn [skipn] in Hsave; congruence].
    rewrite Hk in Hp. exact Hp.
  - destruct (run_extends c db) as [_ [[added [H F]] _]].
    exists added. split; [exact H|].
    eapply Forall_impl; [|exact F]. intros p [Ht|[_ Hn]] Hs; [congruence|auto].
Qed.

Lemma staff_recorded_without_accomodation_witness :
  let pre := "DOMINIC WALTERS " in
  let post := " Y" ++ nl in
  PyStr.contains "FELLOW" (pre ++ "STAFF" ++ post) = false /\
  PyStr.contains "STAFF" (pre ++ "STAF") = false /\
  has_person (PyStr.strip pre) amity = false /\
  map person_fields
      (people_table (fst (Facility.load_people [pre ++ "STAFF" ++ post] amity)))
  = [("SHERLOCK HOLMES", "S", "N"); ("DOMINIC WALTERS", "S", "N")].
Proof.
  intros pre post.
  destruct (staff_recorded_without_accomodation
              ["JOHN WATSON"] pre post (AddStaff ["JOHN WATSON"]) amity)
    as (_ & Hline & _).
  split; [reflexivity|]. split; [reflexivity|]. split; [reflexivity|].
  rewrite Hline; reflexivity.
Defined.

(** ** Keys *)

(** The [PRIMARY KEY] columns: no two rooms share a key, and no two
    people. *)
Definition keys_unique (db : Database) : Prop :=
  NoDup (map room_id (rooms_table db)) /\
  NoDup (map person_id (people_table db)).

Lemma next_id_new ids : ~ In (next_id ids) ids.
Proof. intros H. apply next_id_above in H. lia. Qed.

(** X17. Keys stay unique: from a store in which no two rooms and no two
    people share a key, a new database in particular, any sequence of
    calls leads to a store with the same property, so that the count of
    [available_rooms] for one key is the count for one room. *)
Theorem keys_stay_unique calls db :
  keys_unique db -> keys_unique (run_all calls db).
Proof.
  apply run_all_preserves.
  - intros name type capacity d [Hr Hp]. unfold insert_room.
    destruct (has_room name d); simpl; [split; assumption|].
    split; [|exact Hp]. simpl. rewrite map_app. simpl.
    apply NoDup_snoc; [exact Hr | apply next_id_new].
  - intros name type accomodation d [Hr Hp]. unfold insert_person.
    destruct (has_person name d); simpl; [split; assumption|].
    split; [exact Hr|]. simpl. rewrite map_app. simpl.
    apply NoDup_snoc; [exact Hp | apply next_id_new].
Qed.

Lemma keys_stay_unique_witness :
  let calls := [CreateRooms "office" ["Valhalla"; "Krypton"];
                AddFellows ["ANN"; "BOB"] "Y";
                LoadPeople ["ANN STAFF" ++ nl; "CAT STAFF" ++ nl]] in
  keys_unique amity_allocated /\ keys_unique (run_all calls amity_allocated).
Proof.
  intros calls.
  assert (H : keys_unique amity_allocated).
  { split; simpl; repeat constructor; simpl; intuition discriminate. }
  split; [exact H|]. apply (keys_stay_unique calls amity_allocated). exact H.
Defined.

(** ** The report at the end of a load *)

Lemma no_room_added (l : list room_row) : Forall no_room l -> l = [].
Proof. destruct l; [reflexivity|]. intros H. inversion H as [|? ? []]. Qed.

(** X18. A load that returns leaves the rooms and the allocations as they
    were, and the rooms it prints are those that [available_rooms] reports
    on the store before the load: loading people takes up no space. *)
Theorem load_people_reports_rooms_unchanged lines db out :
  snd (Facility.load_people lines db) = Returned out ->
  rooms_table (fst (Facility.load_people lines db)) = rooms_table db /\
  people_rooms_table (fst (Facility.load_people lines db))
  = people_rooms_table db /\
  snd (Facility.available_rooms db) = Returned (printed_rooms out).
Proof.
  intros Hout.
  destruct (load_people_extends lines db) as [(added & Hr & Fn & _) [_ Ha]].
  apply no_room_added in Fn. subst added. rewrite app_nil_r in Hr.
  split; [exact Hr|]. split; [exact Ha|].
  destruct (Facility.read_people lines [] [] db) as [d [[fs st]|e]] eqn:Hread.
  - pose proof (read_people_pure lines [] [] db) as Hd.
    rewrite Hread in Hd. simpl in Hd. subst d.
    destruct (load_people_run lines db fs st Hread)
      as (db1 & fs' & db2 & st' & rooms & _ & _ & Hrooms & E).
    rewrite E in Hout, Hr, Ha. simpl in Hout, Hr, Ha.
    inversion Hout; subst out. simpl.
    unfold Facility.available_rooms in *. simpl.
    inversion Hrooms as [Hinfo]. f_equal.
    rewrite Hr. apply map_ext. intros r. unfold count_people_rooms.
    now rewrite Ha.
  - unfold Facility.load_people, bind in Hout. rewrite Hread in Hout.
    discriminate.
Qed.

Lemma load_people_reports_rooms_unchanged_witness :
  let lines := ["ANN FELLOW Y" ++ nl; "BOB STAFF" ++ nl] in
  exists out,
    snd (Facility.load_people lines amity_allocated) = Returned out /\
    map (fun i => (info_name i, info_available_space i)) (printed_rooms out)
    = [("Valhalla", 5); ("Python", 4)] /\
    snd (Facility.available_rooms amity_allocated)
    = Returned (printed_rooms out).
Proof.
  intros lines.
  exists {| printed_fellows := [("ANN", "Y")];
            printed_staff := ["BOB"];
            printed_rooms := [mk_room_info "Valhalla" "O" 6 5;
                              mk_room_info "Python" "L" 4 4] |}.
  split; [reflexivity|]. split; [reflexivity|].
  apply (load_people_reports_rooms_unchanged lines amity_allocated).
  reflexivity.
Defined.

(** ** Asking for accommodation *)

Lemma lower_char_y c :
  PyStr.lower_char c = "y"%char <-> c = "y"%char \/ c = "Y"%char.
Proof.
  destruct c as [[] [] [] [] [] [] [] []]; vm_compute; split; intros H;
    try discriminate H; try (destruct H as [H|H]; discriminate H); auto.
Qed.

Lemma lower_y s : PyStr.lower s = "y" <-> s = "y" \/ s = "Y".
Proof.
  destruct s as [|c [|c' s]]; simpl.
  - split; [discriminate | intros [H|H]; discriminate].
  - split.
    + intros H. injection H as H. apply lower_char_y in H.
      destruct H as [-> | ->]; auto.
    + intros [H|H]; injection H as ->; reflexivity.
  - split; [discriminate | intros [H|H]; discriminate].
Qed.

(** X19. Only the arguments ['y'] and ['Y'] ask for accommodation: every
    fellow that [add_fellows] saves holds the flag ['Y'] when the argument
    is one of the two, and the flag ['N'] for any other text, ['yes'],
    ['Yes'] and [' y'] among them. *)
Theorem add_fellows_accommodation_only_for_y fellows accomodation db :
  exists added,
    people_table (fst (Facility.add_fellows fellows accomodation db))
    = (people_table db ++ added)%list /\
    Forall (fun p =>
              (person_accomodation p = "Y"
               <-> accomodation = "y" \/ accomodation = "Y") /\
              (person_accomodation p = "N"
               <-> ~ (accomodation = "y" \/ accomodation = "Y"))) added.
Proof.
  destruct (add_fellows_extends fellows accomodation db)
    as [_ [[added [H F]] _]].
  exists added. split; [exact H|]. eapply Forall_impl; [|exact F].
  intros p (_ & _ & Hflag). rewrite Hflag, <- lower_y.
  destruct (String.eqb_spec (PyStr.lower accomodation) "y") as [E|E].
  - split; split; auto; try discriminate. intros Hn. now elim Hn.
  - split; split; auto; try discriminate. intros Hn. now elim E.
Qed.
